(** * deriva-groups-ui: session, API access layer and group-detail page

    A shallow embedding of the client logic of the groups UI:

    - [Js]: the fragment of JavaScript values the code manipulates
      (JSON payloads, truthiness, [||], property access);
    - [Env]: the world the code runs in (browser location, network log,
      console, toasts, router, [window.confirm]) and a state-and-exception
      monad in which [async] functions with [try/catch/finally] are written;
    - [Api]: [shared/utils/api.ts] (base URLs, the response interceptor
      installed by [setupInterceptors], [authAPI.logout]);
    - [AuthContext]: [shared/contexts/AuthContext.tsx] ([fetchUser], [logout]);
    - [GroupDetail]: [apps/groups/pages/GroupDetail.tsx] ([loadGroupData]
      and the handlers of the page);
    - [Views]: how the invitations tab of the group page, the inbox, the
      invitation-link page and the dashboard display an invitation;
    - [Samples]: concrete hosts, answers and errors for the examples;
    - [JsString]: the string operations that the views use;
    - [Login]: [authAPI.login] and the handlers that call it;
    - [GroupPage]: what GroupDetail.tsx computes when it renders (the
      permissions, the menus, the initials) and its six handlers as one
      family;
    - [Dashboard]: the figures of Dashboard.tsx;
    - [Frame]: predicates on computations (never throws, keeps a field).

    [await] is modelled sequentially: an awaited call runs to completion
    before the caller continues, which is what a single asynchronous
    function observes. *)

From Stdlib Require Import String Ascii List ZArith Bool Lia.
From Stdlib Require Import DecimalString.
Import ListNotations.
Local Open Scope string_scope.
Local Open Scope Z_scope.

(* ================================================================== *)
(** ** JavaScript values *)
(* ================================================================== *)

Module Js.

(** JSON-shaped values. Numbers are the integers the payloads carry
    (HTTP statuses, counts); an object is its list of own properties. *)
#[warnings="-register-all"]
Inductive JsValue : Type :=
| JUndefined
| JNull
| JBool (b : bool)
| JNumber (n : Z)
| JString (s : string)
| JArray (xs : list JsValue)
| JObject (fields : list (string * JsValue)).

(** ToBoolean. *)
Definition truthy (v : JsValue) : bool :=
  match v with
  | JUndefined | JNull => false
  | JBool b => b
  | JNumber n => negb (n =? 0)
  | JString s => negb (s =? "")%string
  | JArray _ | JObject _ => true
  end.

(** [a || b]. *)
Definition or (a b : JsValue) : JsValue := if truthy a then a else b.

Definition nullish (v : JsValue) : bool :=
  match v with
  | JUndefined | JNull => true
  | _ => false
  end.

Fixpoint lookup (fields : list (string * JsValue)) (k : string) : JsValue :=
  match fields with
  | [] => JUndefined
  | (k', v) :: rest => if (k' =? k)%string then v else lookup rest k
  end.

(** [v.k] for a [v] that is neither [null] nor [undefined]: an own
    property of an object, [undefined] on anything else (none of the keys
    the code reads is a built-in property of a primitive or an array). *)
Definition get (v : JsValue) (k : string) : JsValue :=
  match v with
  | JObject fields => lookup fields k
  | _ => JUndefined
  end.

(** [v === "s"]. *)
Definition is_string (v : JsValue) (s : string) : bool :=
  match v with
  | JString t => (t =? s)%string
  | _ => false
  end.

(** [x || "default"] for a string that may be unset. *)
Definition or_default (x : option string) (d : string) : string :=
  match x with
  | Some s => if (s =? "")%string then d else s
  | None => d
  end.

(** Number to string, as a template literal does for an integer. *)
Definition number_to_string (n : Z) : string :=
  NilZero.string_of_int (Z.to_int n).

(** *** encodeURIComponent, on UTF-8 byte strings *)

Definition between (lo hi c : ascii) : bool :=
  ((nat_of_ascii lo <=? nat_of_ascii c) && (nat_of_ascii c <=? nat_of_ascii hi))%nat.

Definition uri_unreserved (c : ascii) : bool :=
  between "A" "Z" c || between "a" "z" c || between "0" "9" c ||
  existsb (Ascii.eqb c) ["-"; "_"; "."; "!"; "~"; "*"; "'"; "("; ")"]%char.

Definition hex_digit (n : nat) : ascii :=
  nth n ["0"; "1"; "2"; "3"; "4"; "5"; "6"; "7"; "8"; "9";
         "A"; "B"; "C"; "D"; "E"; "F"]%char "0"%char.

Definition percent_encode (c : ascii) : string :=
  let n := nat_of_ascii c in
  String "%" (String (hex_digit (n / 16)) (String (hex_digit (n mod 16)) EmptyString)).

Fixpoint encodeURIComponent (s : string) : string :=
  match s with
  | EmptyString => EmptyString
  | String c rest =>
      if uri_unreserved c
      then String c (encodeURIComponent rest)
      else percent_encode c ++ encodeURIComponent rest
  end.

End Js.
Import Js.

(* ================================================================== *)
(** ** The environment of the code, and the monad of async functions *)
(* ================================================================== *)

Module Env.

(** What axios hands to the code: a response, or an error that may carry
    the response and the request, and that the interceptor decorates
    with [userMessage]. *)
Record AxiosResponse : Type := mkResponse {
  status : Z;
  data : JsValue
}.

Record AxiosError : Type := mkError {
  response : option AxiosResponse;
  request : bool;            (* [error.request] is set: the request was sent *)
  userMessage : JsValue      (* [undefined] until the interceptor sets it *)
}.

(** What a [catch] clause can receive. *)
Inductive Exn : Type :=
| EAxios (e : AxiosError)
| ETypeError.                (* property read on [null] or [undefined] *)

Inductive Settled (A : Type) : Type :=
| Resolved (a : A)
| Rejected (e : AxiosError).
Arguments Resolved {A} a.
Arguments Rejected {A} e.

(** The two axios instances of api.ts. *)
Inductive Instance : Type := api | auth.

(** The HTTP calls of the API layer that the modelled code issues. Ids
    read from fetched data are JavaScript values; ids from the route or
    from the view are strings. *)
Inductive Request : Type :=
| GetSession
| GetLogout (redirect : string)
| GetGroup (groupId : string)
| GetGroupMembers (groupId : string)
| GetGroupInvitations (groupId : string)
| GetGroupJoinRequests (groupId : string) (pendingOnly : bool)
| DeleteGroup (groupId : JsValue)
| DeleteGroupMember (groupId : JsValue) (userId : string)
| PutMemberRole (groupId : JsValue) (userId role : string)
| DeleteInvitation (groupId : JsValue) (invitationId : string)
| PostApproveJoinRequest (groupId : JsValue) (requestId role : string)
| PostDenyJoinRequest (groupId : JsValue) (requestId comment : string).

Inductive Toast : Type :=
| ToastError (message : JsValue)
| ToastSuccess (message : string).

(** [import.meta.env], resolved once when api.ts is loaded. *)
Record ImportMetaEnv : Type := mkImportMetaEnv {
  MODE : string;
  VITE_BASE_URL : option string;
  VITE_API_BASE_PATH : option string;
  VITE_AUTH_API_BASE_PATH : option string;
  VITE_BACKEND_URL : option string;
  VITE_AUTH_URL : option string;
  VITE_UI_BASE_PATH : option string
}.

(** What the code reads but does not change during a call: the build
    configuration, the current document's location, the answers of the
    network and of the user. The network and the user see what happened
    before (newest first). *)
Record Host : Type := mkHost {
  env : ImportMetaEnv;
  origin : string;                                   (* window.location.origin *)
  href : string;                                     (* window.location.href *)
  transport : list Request -> Request -> Settled AxiosResponse;
  confirm_answer : list string -> string -> bool     (* window.confirm *)
}.

(** What the code does to the outside, newest first. *)
Record Effects : Type := mkEffects {
  assigned_href : list JsValue;          (* window.location.href = v *)
  network : list Request;                (* HTTP calls issued *)
  console : list (string * Exn);         (* console.error *)
  toasts : list Toast;
  navigations : list string;             (* navigate(path) *)
  confirms : list string                 (* window.confirm prompts shown *)
}.

Definition no_effects : Effects := mkEffects [] [] [] [] [] [].

Definition logged (req : Request) (fx : Effects) : Effects :=
  mkEffects (assigned_href fx) (req :: network fx) (console fx) (toasts fx)
            (navigations fx) (confirms fx).

Inductive Completion (A : Type) : Type :=
| Normal (a : A)
| Throw (e : Exn).
Arguments Normal {A} a.
Arguments Throw {A} e.

(** An async function over component state [S]. *)
Definition M (S A : Type) : Type :=
  Host -> Effects * S -> Completion A * (Effects * S).

Section Monad.
Context {S : Type}.

Definition ret {A} (a : A) : M S A := fun _ st => (Normal a, st).

Definition bind {A B} (m : M S A) (k : A -> M S B) : M S B :=
  fun h st =>
    match m h st with
    | (Normal a, st') => k a h st'
    | (Throw e, st') => (Throw e, st')
    end.

Definition throw {A} (e : Exn) : M S A := fun _ st => (Throw e, st).

(** [try { body } catch (e) { handler e }] *)
Definition try_catch {A} (body : M S A) (handler : Exn -> M S A) : M S A :=
  fun h st =>
    match body h st with
    | (Normal a, st') => (Normal a, st')
    | (Throw e, st') => handler e h st'
    end.

(** [try { body } finally { final }] *)
Definition try_finally {A} (body : M S A) (final : M S unit) : M S A :=
  fun h st =>
    match body h st with
    | (r, st') =>
        match final h st' with
        | (Normal _, st'') => (r, st'')
        | (Throw e, st'') => (Throw e, st'')
        end
    end.

Definition ask : M S Host := fun h st => (Normal h, st).

Definition effect (f : Effects -> Effects) : M S unit :=
  fun _ st => (Normal tt, (f (fst st), snd st)).

Definition effects : M S Effects := fun _ st => (Normal (fst st), st).

Definition get_state : M S S := fun _ st => (Normal (snd st), st).

Definition modify (f : S -> S) : M S unit :=
  fun _ st => (Normal tt, (fst st, f (snd st))).

(** [v.k], which throws a TypeError when [v] is [null] or [undefined]. *)
Definition prop (v : JsValue) (k : string) : M S JsValue :=
  if nullish v then throw ETypeError else ret (get v k).

Definition assign_href (v : JsValue) : M S unit :=
  effect (fun fx => mkEffects (v :: assigned_href fx) (network fx) (console fx)
                              (toasts fx) (navigations fx) (confirms fx)).

Definition log_request (r : Request) : M S unit := effect (logged r).

Definition console_error (label : string) (e : Exn) : M S unit :=
  effect (fun fx => mkEffects (assigned_href fx) (network fx) ((label, e) :: console fx)
                              (toasts fx) (navigations fx) (confirms fx)).

Definition toast (t : Toast) : M S unit :=
  effect (fun fx => mkEffects (assigned_href fx) (network fx) (console fx)
                              (t :: toasts fx) (navigations fx) (confirms fx)).

Definition navigate (path : string) : M S unit :=
  effect (fun fx => mkEffects (assigned_href fx) (network fx) (console fx)
                              (toasts fx) (path :: navigations fx) (confirms fx)).

(** [window.confirm(prompt)] *)
Definition confirm (prompt : string) : M S bool :=
  fun h st =>
    let fx := fst st in
    (Normal (confirm_answer h (confirms fx) prompt),
     (mkEffects (assigned_href fx) (network fx) (console fx)
                (toasts fx) (navigations fx) (prompt :: confirms fx), snd st)).

End Monad.

(** A computation that shows no [window.confirm] prompt. *)
Definition quiet {S A : Type} (m : M S A) : Prop :=
  forall h st, confirms (fst (snd (m h st))) = confirms (fst st).

Declare Scope js_scope.
Delimit Scope js_scope with js.
Notation "x <- m ;; k" := (bind m (fun x => k))
  (at level 61, m at next level, right associativity) : js_scope.
Notation "m ;; k" := (bind m (fun _ => k))
  (at level 61, right associativity) : js_scope.

(** [error.response?.status] and [error.userMessage] of a caught value. *)
Definition response_status (e : Exn) : option Z :=
  match e with
  | EAxios err => option_map status (response err)
  | ETypeError => None
  end.

Definition status_is (e : Exn) (n : Z) : bool :=
  match response_status e with
  | Some m => m =? n
  | None => false
  end.

Definition exn_userMessage (e : Exn) : JsValue :=
  match e with
  | EAxios err => userMessage err
  | ETypeError => JUndefined
  end.

End Env.
Import Env.
Local Open Scope js_scope.

(* ================================================================== *)
(** ** shared/utils/api.ts *)
(* ================================================================== *)

Module Api.

Definition env_set (x : option string) : bool :=
  match x with
  | Some s => negb (s =? "")%string
  | None => false
  end.

(** [const baseUrl = import.meta.env.VITE_BASE_URL || window.location.origin] *)
Definition baseUrl (h : Host) : string :=
  or_default (VITE_BASE_URL (env h)) (origin h).

Definition getApiBaseUrl (h : Host) : string :=
  let apiBasePath := or_default (VITE_API_BASE_PATH (env h)) "/groups" in
  if (MODE (env h) =? "development")%string && env_set (VITE_BACKEND_URL (env h))
  then or_default (VITE_BACKEND_URL (env h)) ""
  else baseUrl h ++ apiBasePath.

Definition getAuthApiBaseUrl (h : Host) : string :=
  let authApiBasePath := or_default (VITE_AUTH_API_BASE_PATH (env h)) "/authn" in
  if (MODE (env h) =? "development")%string && env_set (VITE_AUTH_URL (env h))
  then or_default (VITE_AUTH_URL (env h)) ""
  else baseUrl h ++ authApiBasePath.

Definition API_BASE_URL := getApiBaseUrl.
Definition AUTH_API_BASE_URL := getAuthApiBaseUrl.

Definition with_userMessage (error : AxiosError) (m : JsValue) : AxiosError :=
  mkError (response error) (request error) m.

(** [error.response?.data] *)
Definition response_data (error : AxiosError) : JsValue :=
  match response error with
  | Some r => data r
  | None => JUndefined
  end.

Definition login_url (authBaseUrl page : string) : string :=
  authBaseUrl ++ "/login?referrer=" ++ encodeURIComponent page.

Definition connectivity_message : string :=
  "Unable to connect to server. Please check your internet connection.".

Definition unexpected_message : string := "An unexpected error occurred".

Definition server_error_message (error : AxiosError) : JsValue :=
  match response error with
  | Some r => JString ("Server error (" ++ number_to_string (status r) ++ ")")
  | None => JUndefined
  end.

Section Interceptors.
Context {S : Type}.

(** The rejection handler that [setupInterceptors] installs with
    [interceptors.response.use]; the fulfilment handler is the identity. *)
Definition onResponseError (authBaseUrl : string) (error : AxiosError)
  : M S AxiosResponse :=
  if status_is (EAxios error) 401 then
    h <- ask ;;
    assign_href (JString (login_url authBaseUrl (href h))) ;;
    throw (EAxios error)
  else
    let userMessage :=
      if truthy (response_data error) then
        or (get (response_data error) "message")
           (or (get (response_data error) "error")
               (or (get (response_data error) "detail")
                   (server_error_message error)))
      else if request error then JString connectivity_message
      else JString unexpected_message in
    throw (EAxios (with_userMessage error userMessage)).

(** [setupInterceptors(api, AUTH_API_BASE_URL);
     setupInterceptors(auth, AUTH_API_BASE_URL);] *)
Definition setupInterceptors (i : Instance) (error : AxiosError)
  : M S AxiosResponse :=
  h <- ask ;;
  match i with
  | api => onResponseError (AUTH_API_BASE_URL h) error
  | auth => onResponseError (AUTH_API_BASE_URL h) error
  end.

(** A call through an instance: the request goes out, the answer passes
    the response interceptor. *)
Definition axios_request (i : Instance) (r : Request) : M S AxiosResponse :=
  h <- ask ;;
  fx <- effects ;;
  log_request r ;;
  match transport h (network fx) r with
  | Resolved resp => ret resp
  | Rejected error => setupInterceptors i error
  end.

(** [authAPI.getCurrentUser] *)
Definition getCurrentUser : M S AxiosResponse := axios_request auth GetSession.

(** [authAPI.logout] *)
Definition logout (redirectUrl : option string) : M S unit :=
  h <- ask ;;
  let uiBasePath := or_default (VITE_UI_BASE_PATH (env h)) "/deriva/apps" in
  let defaultRedirect := origin h ++ uiBasePath ++ "/" in
  let redirect := or_default redirectUrl defaultRedirect in
  try_catch
    (response <- axios_request auth (GetLogout redirect) ;;
     if truthy (data response) && truthy (get (data response) "logout_url")
     then assign_href (get (data response) "logout_url")
     else ret tt)
    (fun error => console_error "Logout error:" error).

(** groupsAPI and joinRequestsAPI, as far as the group page uses them. *)
Definition getGroup (groupId : string) := axios_request api (GetGroup groupId).
Definition getGroupMembers (groupId : string) :=
  axios_request api (GetGroupMembers groupId).
Definition getGroupInvitations (groupId : string) :=
  axios_request api (GetGroupInvitations groupId).
Definition getGroupJoinRequests (groupId : string) :=
  axios_request api (GetGroupJoinRequests groupId true).
Definition deleteGroup (groupId : JsValue) := axios_request api (DeleteGroup groupId).
Definition removeGroupMember (groupId : JsValue) (userId : string) :=
  axios_request api (DeleteGroupMember groupId userId).
Definition updateMemberRole (groupId : JsValue) (userId role : string) :=
  axios_request api (PutMemberRole groupId userId role).
Definition revokeInvitation (groupId : JsValue) (invitationId : string) :=
  axios_request api (DeleteInvitation groupId invitationId).
Definition approveJoinRequest (groupId : JsValue) (requestId role : string) :=
  axios_request api (PostApproveJoinRequest groupId requestId role).
Definition denyJoinRequest (groupId : JsValue) (requestId comment : string) :=
  axios_request api (PostDenyJoinRequest groupId requestId comment).

End Interceptors.

(** The message as the specification words it: a response was received,
    or it was not. *)
Definition spec_userMessage (error : AxiosError) : JsValue :=
  match response error with
  | Some r =>
      or (get (data r) "message")
         (or (get (data r) "error")
             (or (get (data r) "detail")
                 (JString ("Server error (" ++ number_to_string (status r) ++ ")"))))
  | None => JString connectivity_message
  end.

End Api.

(* ================================================================== *)
(** ** shared/contexts/AuthContext.tsx *)
(* ================================================================== *)

Module AuthContext.

(** The [User] record that the provider stores. The fields hold whatever
    the payload carried. *)
Record User : Type := mkUser {
  id : JsValue;
  email : JsValue;
  preferred_username : JsValue;
  full_name : JsValue;
  email_verified : JsValue;
  group_memberships : JsValue;
  pending_invitations_count : JsValue
}.

(** The state of [AuthProvider]. *)
Record AuthState : Type := mkAuthState {
  user : option User;
  loading : bool;
  error : option string
}.

Definition initial : AuthState := mkAuthState None true None.

Definition setUser (u : option User) : M AuthState unit :=
  modify (fun s => mkAuthState u (loading s) (error s)).
Definition setLoading (b : bool) : M AuthState unit :=
  modify (fun s => mkAuthState (user s) b (error s)).
Definition setError (e : option string) : M AuthState unit :=
  modify (fun s => mkAuthState (user s) (loading s) e).

(** The two branches of [fetchUser] that build the user from [data]. *)
Definition legacy_user (data client : JsValue) : User :=
  {| id := get client "id";
     email := get client "email";
     preferred_username := get client "display_name";
     full_name := get client "full_name";
     email_verified := or (get data "email_verified") (JString "unknown");
     group_memberships := or (get data "group_memberships") (JArray []);
     pending_invitations_count := or (get data "pending_invitations_count") (JNumber 0) |}.

Definition flat_user (data : JsValue) : User :=
  {| id := get data "id";
     email := get data "email";
     preferred_username := get data "preferred_username";
     full_name := get data "full_name";
     email_verified := get data "email_verified";
     group_memberships := or (get data "group_memberships") (JArray []);
     pending_invitations_count := or (get data "pending_invitations_count") (JNumber 0) |}.

(** The body of the [try] block after the response has arrived. *)
Definition normalize (data : JsValue) : M AuthState User :=
  client <- prop data "client" ;;
  if truthy client then ret (legacy_user data client) else ret (flat_user data).

Definition fetch_error_message : string := "Failed to fetch user information".

Definition fetchUser : M AuthState unit :=
  try_finally
    (try_catch
       (setLoading true ;;
        setError None ;;
        response <- Api.getCurrentUser ;;
        u <- normalize (data response) ;;
        setUser (Some u))
       (fun err =>
          if status_is err 404 then setUser None
          else (setError (Some fetch_error_message) ;;
                console_error "Auth error:" err)))
    (setLoading false).

Definition logout (redirectUrl : option string) : M AuthState unit :=
  Api.logout redirectUrl.

Definition refreshUser : M AuthState unit := fetchUser.

(** The two payload shapes for the same user fields. A field that the
    payload does not carry is given as [None]. *)
Record UserFields : Type := mkUserFields {
  f_id : JsValue;
  f_email : JsValue;
  f_name : JsValue;
  f_full_name : JsValue;
  f_email_verified : option JsValue;
  f_group_memberships : option JsValue;
  f_pending_invitations_count : option JsValue
}.

Definition optional_field (k : string) (v : option JsValue)
  : list (string * JsValue) :=
  match v with
  | Some x => [(k, x)]
  | None => []
  end.

Definition session_fields (f : UserFields) : list (string * JsValue) :=
  optional_field "email_verified" (f_email_verified f) ++
  optional_field "group_memberships" (f_group_memberships f) ++
  optional_field "pending_invitations_count" (f_pending_invitations_count f).

Definition legacy_payload (f : UserFields) : JsValue :=
  JObject (("client",
            JObject [("id", f_id f); ("email", f_email f);
                     ("display_name", f_name f); ("full_name", f_full_name f)])
           :: session_fields f).

Definition flat_payload (f : UserFields) : JsValue :=
  JObject ([("id", f_id f); ("email", f_email f);
            ("preferred_username", f_name f); ("full_name", f_full_name f)]
           ++ session_fields f).

(** The state after a session fetch that answers with [payload]. *)
Definition session_host (payload : JsValue) : Host :=
  mkHost (mkImportMetaEnv "production" None None None None None None)
         "https://h.org" "https://h.org/deriva/apps/groups/dashboard"
         (fun _ _ => Resolved (mkResponse 200 payload))
         (fun _ _ => false).

Definition user_after_fetch (payload : JsValue) : option User :=
  user (snd (snd (fetchUser (session_host payload) (no_effects, initial)))).

Definition alice (verified : option JsValue) : UserFields :=
  mkUserFields (JString "u1") (JString "alice@example.org") (JString "alice")
               (JString "Alice A.") verified None None.

End AuthContext.

(* ================================================================== *)
(** ** apps/groups/pages/GroupDetail.tsx *)
(* ================================================================== *)

Module GroupDetail.

Inductive Tab : Type := TabMembers | TabInvitations | TabRequests.

(** The [useState] cells of the page. *)
Record State : Type := mkState {
  group : JsValue;
  members : JsValue;
  invitations : JsValue;
  joinRequests : JsValue;
  loading : bool;
  activeTab : Tab;
  showInviteModal : bool;
  showEditModal : bool
}.

Definition initial : State :=
  mkState JNull (JArray []) (JArray []) (JArray []) true TabMembers false false.

Definition setGroup (v : JsValue) : M State unit :=
  modify (fun s => mkState v (members s) (invitations s) (joinRequests s)
                           (loading s) (activeTab s) (showInviteModal s) (showEditModal s)).
Definition setMembers (v : JsValue) : M State unit :=
  modify (fun s => mkState (group s) v (invitations s) (joinRequests s)
                           (loading s) (activeTab s) (showInviteModal s) (showEditModal s)).
Definition setInvitations (v : JsValue) : M State unit :=
  modify (fun s => mkState (group s) (members s) v (joinRequests s)
                           (loading s) (activeTab s) (showInviteModal s) (showEditModal s)).
Definition setJoinRequests (v : JsValue) : M State unit :=
  modify (fun s => mkState (group s) (members s) (invitations s) v
                           (loading s) (activeTab s) (showInviteModal s) (showEditModal s)).
Definition setLoading (b : bool) : M State unit :=
  modify (fun s => mkState (group s) (members s) (invitations s) (joinRequests s)
                           b (activeTab s) (showInviteModal s) (showEditModal s)).

(** The state after [setLoading(false)]. *)
Definition loaded (s : State) : State :=
  mkState (group s) (members s) (invitations s) (joinRequests s) false
          (activeTab s) (showInviteModal s) (showEditModal s).

(** [userMembership && (userMembership.role === 'administrator' ||
     userMembership.role === 'manager')] *)
Definition canManage (userMembership : JsValue) : bool :=
  truthy userMembership &&
  (is_string (get userMembership "role") "administrator" ||
   is_string (get userMembership "role") "manager").

Definition load_failed_label : string := "Failed to load group data:".

Definition loadGroupData_catch (error : Exn) : M State unit :=
  console_error load_failed_label error ;;
  if status_is error 403 then
    toast (ToastError (JString "You do not have permission to view this group")) ;;
    navigate "/detail"
  else if status_is error 404 then
    toast (ToastError (JString "Group not found")) ;;
    navigate "/detail"
  else
    toast (ToastError (or (exn_userMessage error) (JString "Failed to load group data"))).

Definition loadGroupData_try (groupId : string) : M State unit :=
  setLoading true ;;
  groupResponse <- Api.getGroup groupId ;;
  setGroup (data groupResponse) ;;
  membersResponse <- Api.getGroupMembers groupId ;;
  ms <- prop (data membersResponse) "members" ;;
  setMembers ms ;;
  userMembership <- prop (data groupResponse) "membership" ;;
  if canManage userMembership then
    invitationsResponse <- Api.getGroupInvitations groupId ;;
    invs <- prop (data invitationsResponse) "invitations" ;;
    setInvitations invs ;;
    joinRequestsResponse <- Api.getGroupJoinRequests groupId ;;
    reqs <- prop (data joinRequestsResponse) "join_requests" ;;
    setJoinRequests reqs
  else ret tt.

(** [groupId] is the route parameter, which may be missing. *)
Definition loadGroupData (groupId : option string) : M State unit :=
  match groupId with
  | None => ret tt
  | Some gid =>
      if (gid =? "")%string then ret tt
      else try_finally (try_catch (loadGroupData_try gid) loadGroupData_catch)
                       (setLoading false)
  end.

(** The fetches of a load, in the order in which the source awaits
    them, and the calls that are out when each one answers (newest
    first). *)
Inductive Fetch : Type := FetchGroup | FetchMembers | FetchInvitations.

Definition issued_until (f : Fetch) (gid : string) : list Request :=
  match f with
  | FetchGroup => [GetGroup gid]
  | FetchMembers => [GetGroupMembers gid; GetGroup gid]
  | FetchInvitations => [GetGroupInvitations gid; GetGroupMembers gid; GetGroup gid]
  end.

(** The load of group [gid], started when the calls [before] were out,
    reaches fetch [f], and that fetch fails with [error]. *)
Definition fails_at (f : Fetch) (gid : string) (h : Host) (before : list Request)
    (error : AxiosError) : Prop :=
  match f with
  | FetchGroup =>
      transport h before (GetGroup gid) = Rejected error
  | FetchMembers =>
      (exists r1, transport h before (GetGroup gid) = Resolved r1) /\
      transport h (GetGroup gid :: before) (GetGroupMembers gid) = Rejected error
  | FetchInvitations =>
      exists r1 r2,
        transport h before (GetGroup gid) = Resolved r1 /\
        transport h (GetGroup gid :: before) (GetGroupMembers gid) = Resolved r2 /\
        nullish (data r2) = false /\
        canManage (get (data r1) "membership") = true /\
        transport h (GetGroupMembers gid :: GetGroup gid :: before)
                  (GetGroupInvitations gid) = Rejected error
  end.

(** The handlers. Where the source calls [loadGroupData()] without
    awaiting it, the reload runs after the handler's own steps. *)

Definition toast_failure (error : Exn) (fallback : string) : M State unit :=
  toast (ToastError (or (exn_userMessage error) (JString fallback))).

Definition confirm_delete_group : string :=
  "Are you sure you want to delete this group? This action cannot be undone.".
Definition confirm_remove_member : string :=
  "Are you sure you want to remove this member?".
Definition confirm_revoke_invitation : string :=
  "Are you sure you want to revoke this invitation?".
Definition confirm_deny_request : string :=
  "Are you sure you want to deny this join request?".

(** [if (!group || !window.confirm(prompt)) return;] then [action] on
    the group. *)
Definition guarded (prompt : string) (action : JsValue -> M State unit)
  : M State unit :=
  s <- get_state ;;
  if negb (truthy (group s)) then ret tt
  else
    ok <- confirm prompt ;;
    if negb ok then ret tt else action (group s).

Definition handleDeleteGroup : M State unit :=
  guarded confirm_delete_group (fun group =>
    try_catch
      (Api.deleteGroup (get group "id") ;;
       toast (ToastSuccess "Group deleted successfully") ;;
       navigate "/detail")
      (fun error =>
         console_error "Failed to delete group:" error ;;
         toast_failure error "Failed to delete group")).

Definition handleRemoveMember (groupId : option string) (userId : string)
  : M State unit :=
  guarded confirm_remove_member (fun group =>
    try_catch
      (Api.removeGroupMember (get group "id") userId ;;
       toast (ToastSuccess "Member removed successfully") ;;
       loadGroupData groupId)
      (fun error =>
         console_error "Failed to remove member:" error ;;
         toast_failure error "Failed to remove member")).

Definition handleUpdateRole (groupId : option string) (userId newRole : string)
  : M State unit :=
  s <- get_state ;;
  if negb (truthy (group s)) then ret tt
  else
    try_catch
      (Api.updateMemberRole (get (group s) "id") userId newRole ;;
       toast (ToastSuccess "Member role updated successfully") ;;
       loadGroupData groupId)
      (fun error =>
         console_error "Failed to update member role:" error ;;
         toast_failure error "Failed to update member role").

Definition handleRevokeInvitation (groupId : option string) (invitationId : string)
  : M State unit :=
  guarded confirm_revoke_invitation (fun group =>
    try_catch
      (Api.revokeInvitation (get group "id") invitationId ;;
       toast (ToastSuccess "Invitation revoked successfully") ;;
       loadGroupData groupId)
      (fun error =>
         console_error "Failed to revoke invitation:" error ;;
         toast_failure error "Failed to revoke invitation")).

Definition handleApproveJoinRequest (groupId : option string)
    (requestId role : string) : M State unit :=
  s <- get_state ;;
  if negb (truthy (group s)) then ret tt
  else
    try_catch
      (Api.approveJoinRequest (get (group s) "id") requestId role ;;
       toast (ToastSuccess "Join request approved successfully") ;;
       loadGroupData groupId)
      (fun error =>
         console_error "Failed to approve join request:" error ;;
         toast_failure error "Failed to approve join request").

Definition handleDenyJoinRequest (groupId : option string)
    (requestId comment : string) : M State unit :=
  guarded confirm_deny_request (fun group =>
    try_catch
      (Api.denyJoinRequest (get group "id") requestId comment ;;
       toast (ToastSuccess "Join request denied successfully") ;;
       loadGroupData groupId)
      (fun error =>
         console_error "Failed to deny join request:" error ;;
         toast_failure error "Failed to deny join request")).

(** The destructive actions of the page. *)
Inductive Destructive : Type :=
| DeleteThisGroup
| RemoveMember (userId : string)
| RevokeInvitation (invitationId : string)
| DenyJoinRequest (requestId comment : string).

Definition handler (groupId : option string) (a : Destructive) : M State unit :=
  match a with
  | DeleteThisGroup => handleDeleteGroup
  | RemoveMember userId => handleRemoveMember groupId userId
  | RevokeInvitation invitationId => handleRevokeInvitation groupId invitationId
  | DenyJoinRequest requestId comment => handleDenyJoinRequest groupId requestId comment
  end.

Definition prompt_of (a : Destructive) : string :=
  match a with
  | DeleteThisGroup => confirm_delete_group
  | RemoveMember _ => confirm_remove_member
  | RevokeInvitation _ => confirm_revoke_invitation
  | DenyJoinRequest _ _ => confirm_deny_request
  end.

End GroupDetail.

(* ================================================================== *)
(** ** How the pages display an invitation *)
(* ================================================================== *)

Module Views.

(** [GroupInvitation] of api.ts, the fields that the views read. *)
Record GroupInvitation : Type := mkInvitation {
  inv_id : string;
  inv_email : string;
  inv_role : string;
  inv_token : string;
  inv_created_at : string;
  inv_expires_at : string;
  inv_status : string
}.

(** The clock of the browser: [parse s] is the time value of
    [new Date(s)] in milliseconds ([None] for an invalid date), [now] the
    time value of [new Date()] when the view renders. *)
Record Clock : Type := mkClock {
  parse : string -> option Z;
  now : Z
}.

(** [new Date(expiresAt) < new Date()] *)
Definition isInvitationExpired (c : Clock) (expiresAt : string) : bool :=
  match parse c expiresAt with
  | Some t => t <? now c
  | None => false
  end.

(** Rendered text: literal pieces and dates formatted by date-fns with
    the pattern 'MMM d, yyyy'. [format] throws a RangeError on a date that
    does not parse: a row with a [Formatted] piece describes the view for
    dates that parse. *)
Inductive Piece : Type :=
| Lit (s : string)
| Formatted (date : string).

Definition getRoleBadgeClass (role : string) : string :=
  if (role =? "administrator")%string then "bg-purple-100 text-purple-800"
  else if (role =? "manager")%string then "bg-blue-100 text-blue-800"
  else if (role =? "member")%string then "bg-gray-100 text-gray-800"
  else "bg-gray-100 text-gray-800".

(** *** GroupDetail.tsx, the invitations tab *)

Definition getStatusBadgeClass (status : string) : string :=
  if (status =? "pending")%string then "bg-yellow-100 text-yellow-800"
  else if (status =? "accepted")%string then "bg-green-100 text-green-800"
  else if (status =? "expired")%string then "bg-red-100 text-red-800"
  else if (status =? "revoked")%string then "bg-gray-100 text-gray-800"
  else "bg-gray-100 text-gray-800".

Record TabRow : Type := mkTabRow {
  tab_email : string;
  tab_dates : list Piece;
  tab_role_class : string;
  tab_role : string;
  tab_status_class : string;
  tab_status : string;
  tab_revoke_button : bool
}.

Definition group_detail_row (c : Clock) (invitation : GroupInvitation) : TabRow :=
  {| tab_email := inv_email invitation;
     tab_dates := [Lit "Invited "; Formatted (inv_created_at invitation);
                   Lit " • "; Lit "Expires "; Formatted (inv_expires_at invitation)];
     tab_role_class := getRoleBadgeClass (inv_role invitation);
     tab_role := inv_role invitation;
     tab_status_class := getStatusBadgeClass (inv_status invitation);
     tab_status := inv_status invitation;
     tab_revoke_button := (inv_status invitation =? "pending")%string |}.

(** *** Invitations.tsx, the inbox *)

Definition getStatusText (status : string) : string :=
  if (status =? "pending")%string then "Pending"
  else if (status =? "accepted")%string then "Accepted"
  else if (status =? "expired")%string then "Expired"
  else if (status =? "revoked")%string then "Revoked"
  else status.

Record InboxRow : Type := mkInboxRow {
  inbox_dates : list Piece;
  inbox_status_class : string;
  inbox_status : string;
  inbox_accept_button : bool
}.

Definition inbox_row (c : Clock) (invitation : GroupInvitation) : InboxRow :=
  let isExpired := isInvitationExpired c (inv_expires_at invitation) in
  let canAccept := (inv_status invitation =? "pending")%string && negb isExpired in
  {| inbox_dates :=
       [Lit "Invited "; Formatted (inv_created_at invitation); Lit " • "] ++
       (if isExpired then [Lit "Expired"]
        else [Lit "Expires "; Formatted (inv_expires_at invitation)]);
     inbox_status_class :=
       if (inv_status invitation =? "pending")%string
       then (if isExpired then "bg-red-100 text-red-800"
             else "bg-yellow-100 text-yellow-800")
       else if (inv_status invitation =? "accepted")%string
       then "bg-green-100 text-green-800"
       else "bg-gray-100 text-gray-800";
     inbox_status :=
       if isExpired && (inv_status invitation =? "pending")%string then "Expired"
       else getStatusText (inv_status invitation);
     inbox_accept_button := canAccept |}.

(** *** AcceptInvitation.tsx, the invitation link *)

Record InvitationInfo : Type := mkInvitationInfo {
  group_name : string;
  info_role : string;
  info_expires_at : string;
  is_valid : bool
}.

Inductive Panel : Type :=
| PanelExpired          (* "This invitation has expired" *)
| PanelNoLongerValid    (* "This invitation is no longer valid" *)
| PanelSignIn           (* "Sign In to Accept" *)
| PanelAccept.          (* "Accept Invitation" *)

(** The page once the invitation is loaded: the expiry line and the
    panel under it. Both branches of the expiry line call
    [format(new Date(invitationInfo.expires_at), ...)], which throws a
    RangeError when the date does not parse: the render then throws and
    shows nothing ([None]). *)
Definition accept_page (c : Clock) (signed_in : bool) (invitationInfo : InvitationInfo)
  : option (list Piece * Panel) :=
  let isExpired := isInvitationExpired c (info_expires_at invitationInfo) in
  match parse c (info_expires_at invitationInfo) with
  | None => None
  | Some _ =>
      Some ((if isExpired
             then [Lit "Expired "; Formatted (info_expires_at invitationInfo)]
             else [Lit "Expires "; Formatted (info_expires_at invitationInfo)]),
            if isExpired then PanelExpired
            else if negb (is_valid invitationInfo) then PanelNoLongerValid
            else if negb signed_in then PanelSignIn
            else PanelAccept)
  end.

(** *** Dashboard.tsx, the pending invitations card *)

Definition dashboard_card (c : Clock) (invitation : GroupInvitation)
  : list Piece * bool :=
  ([Lit "Expires "; Formatted (inv_expires_at invitation)], true).

(** An invitation that lapsed on 2020-01-01 and that the server still
    lists as pending, seen on 2026-01-01. *)
Definition lapsed : GroupInvitation :=
  mkInvitation "inv-1" "bob@example.org" "member" "tok-1"
               "2019-12-01T00:00:00.000Z" "2020-01-01T00:00:00.000Z" "pending".

Definition clock_2026 : Clock :=
  mkClock (fun s => if (s =? "2020-01-01T00:00:00.000Z")%string then Some 1577836800000
                    else if (s =? "2019-12-01T00:00:00.000Z")%string then Some 1575158400000
                    else None)
          1767225600000.

End Views.

(* ================================================================== *)
(** ** Concrete hosts, answers and errors *)
(* ================================================================== *)

Module Samples.

Definition production : ImportMetaEnv :=
  mkImportMetaEnv "production" None None None None None None.

(** A production deployment on https://h.org showing group 7. *)
Definition host (t : list Request -> Request -> Settled AxiosResponse)
    (answer : bool) : Host :=
  mkHost production "https://h.org" "https://h.org/deriva/apps/groups/detail/7"
         t (fun _ _ => answer).

Definition error_with (code : Z) (body : JsValue) : AxiosError :=
  mkError (Some (mkResponse code body)) true JUndefined.

Definition unauthorized : AxiosError :=
  error_with 401 (JObject [("error", JString "unauthorized")]).
Definition not_found : AxiosError :=
  error_with 404 (JObject [("error", JString "no session")]).
Definition conflict : AxiosError :=
  error_with 409 (JObject [("error", JString "Group name already exists")]).
Definition bad_gateway : AxiosError :=
  error_with 502 (JObject [("title", JString "Bad Gateway")]).
Definition offline : AxiosError := mkError None true JUndefined.
Definition setup_failure : AxiosError := mkError None false JUndefined.

Definition group_with_role (role : string) : JsValue :=
  JObject [("id", JString "7"); ("name", JString "lab");
           ("membership", JObject [("user_id", JString "u1"); ("role", JString role)])].

(** A groups service that serves group 7 with the user in [role], and
    fails with 502 on the calls that [fails] selects. *)
Definition groups_service (role : string) (fails : Request -> bool)
  : list Request -> Request -> Settled AxiosResponse :=
  fun _ req =>
    if fails req then Rejected bad_gateway
    else match req with
         | GetGroup _ => Resolved (mkResponse 200 (group_with_role role))
         | GetGroupMembers _ =>
             Resolved (mkResponse 200 (JObject [("members", JArray [])]))
         | GetGroupInvitations _ =>
             Resolved (mkResponse 200 (JObject [("invitations", JArray [])]))
         | GetGroupJoinRequests _ _ =>
             Resolved (mkResponse 200 (JObject [("join_requests", JArray [])]))
         | _ => Resolved (mkResponse 204 JNull)
         end.

Definition is_invitations_fetch (req : Request) : bool :=
  match req with
  | GetGroupInvitations _ => true
  | _ => false
  end.

Definition never (req : Request) : bool := false.

Definition always (a : Settled AxiosResponse)
  : list Request -> Request -> Settled AxiosResponse := fun _ _ => a.

End Samples.

(* ================================================================== *)
(** ** Strings, as far as the views compute on them *)
(* ================================================================== *)

Module JsString.

(** The string operations below are those of JavaScript on strings of
    ASCII characters, where a character, a UTF-16 unit and a byte are the
    same thing. *)
Fixpoint is_ascii (s : string) : bool :=
  match s with
  | EmptyString => true
  | String c rest => (nat_of_ascii c <? 128)%nat && is_ascii rest
  end.

(** [s.split(sep)] for a separator of one character: at least one part. *)
Fixpoint split (sep : ascii) (s : string) : list string :=
  match s with
  | EmptyString => [EmptyString]
  | String c rest =>
      if Ascii.eqb c sep then EmptyString :: split sep rest
      else match split sep rest with
           | [] => [String c EmptyString]
           | part :: parts => String c part :: parts
           end
  end.

(** [s[0]], which is [undefined] on the empty string. *)
Definition first_char (s : string) : option string :=
  match s with
  | EmptyString => None
  | String c _ => Some (String c EmptyString)
  end.

Definition upper_char (c : ascii) : ascii :=
  if between "a" "z" c then ascii_of_nat (nat_of_ascii c - 32) else c.

Fixpoint toUpperCase (s : string) : string :=
  match s with
  | EmptyString => EmptyString
  | String c rest => String (upper_char c) (toUpperCase rest)
  end.

(** [s.substring(0, 2)] *)
Definition substring_0_2 (s : string) : string :=
  match s with
  | String a (String b _) => String a (String b EmptyString)
  | _ => s
  end.

(** The operand of [+] next to a string: [undefined] reads "undefined". *)
Definition to_string (x : option string) : string :=
  match x with
  | Some s => s
  | None => "undefined"
  end.

(** An inverse of [encodeURIComponent]: what a server reads back from the
    query parameter. *)
Definition hex_value (c : ascii) : nat :=
  let n := nat_of_ascii c in
  if between "0" "9" c then n - 48
  else if between "A" "F" c then n - 55
  else if between "a" "f" c then n - 87
  else 0.

Fixpoint percent_decode (s : string) : string :=
  match s with
  | EmptyString => EmptyString
  | String c rest =>
      if Ascii.eqb c "%" then
        match rest with
        | String a (String b rest') =>
            String (ascii_of_nat (16 * hex_value a + hex_value b)) (percent_decode rest')
        | _ => String c (percent_decode rest)
        end
      else String c (percent_decode rest)
  end.

End JsString.

(* ================================================================== *)
(** ** Signing in: authAPI.login and its callers *)
(* ================================================================== *)

Module Login.

Section Login.
Context {S : Type}.

(** [authAPI.login] *)
Definition login (referrer : option string) : M S unit :=
  h <- ask ;;
  let uiBasePath := or_default (VITE_UI_BASE_PATH (env h)) "/deriva/apps" in
  let defaultReferrer := origin h ++ uiBasePath ++ "/" in
  let redirect := or_default referrer defaultReferrer in
  assign_href (JString (Api.AUTH_API_BASE_URL h ++ "/login?referrer="
                        ++ encodeURIComponent redirect)).

(** [handleLogin] of AcceptInvitation.tsx and RequestToJoin.tsx:
    [login(window.location.href)] through the context. *)
Definition handleLogin : M S unit :=
  h <- ask ;;
  login (Some (href h)).

End Login.

(** [login] of AuthContext.tsx *)
Definition context_login (referrer : option string)
  : M AuthContext.AuthState unit :=
  login referrer.

End Login.

(* ================================================================== *)
(** ** GroupDetail.tsx: what the page computes when it renders *)
(* ================================================================== *)

Module GroupPage.

(** [group?.membership?.role] *)
Definition membership_role (group : JsValue) : JsValue :=
  if nullish group then JUndefined
  else if nullish (get group "membership") then JUndefined
  else get (get group "membership") "role".

Definition canManageGroup (s : GroupDetail.State) : bool :=
  is_string (membership_role (GroupDetail.group s)) "administrator" ||
  is_string (membership_role (GroupDetail.group s)) "manager".

Definition canAdminGroup (s : GroupDetail.State) : bool :=
  is_string (membership_role (GroupDetail.group s)) "administrator".

(** [a === b] for two values read from different responses: primitives
    are compared, two objects or arrays are never the same object. *)
Definition strict_eq (a b : JsValue) : bool :=
  match a, b with
  | JUndefined, JUndefined => true
  | JNull, JNull => true
  | JBool x, JBool y => Bool.eqb x y
  | JNumber x, JNumber y => x =? y
  | JString x, JString y => (x =? y)%string
  | _, _ => false
  end.

(** [user?.id] *)
Definition user_id (user : option AuthContext.User) : JsValue :=
  match user with
  | Some u => AuthContext.id u
  | None => JUndefined
  end.

(** The tabs of the page. *)
Definition tabs (s : GroupDetail.State) : list GroupDetail.Tab :=
  ([GroupDetail.TabMembers] ++
   (if canManageGroup s then [GroupDetail.TabInvitations] else []) ++
   (if canManageGroup s then [GroupDetail.TabRequests] else []))%list.

(** The menu of a member's row: [None] when the row has no menu. The
    items call [handleUpdateRole] with the role named, and
    [handleRemoveMember]. *)
Inductive MemberItem : Type :=
| MakeRole (role : string)
| RemoveFromGroup.

Definition member_menu (s : GroupDetail.State) (user : option AuthContext.User)
    (member_user_id member_role : JsValue) : option (list MemberItem) :=
  if canManageGroup s && negb (strict_eq member_user_id (user_id user)) then
    Some ((if canAdminGroup s && negb (is_string member_role "administrator")
           then [MakeRole "administrator"] else []) ++
          (if negb (is_string member_role "manager")
           then [MakeRole "manager"] else []) ++
          (if negb (is_string member_role "member")
           then [MakeRole "member"] else []) ++
          [RemoveFromGroup])%list
  else None.

(** The buttons of a join request's row. The approve items call
    [handleApproveJoinRequest] with the role named. *)
Inductive RequestItem : Type :=
| ApproveAs (role : string)
| Deny.

Definition request_buttons (s : GroupDetail.State) (request_status : JsValue)
  : list RequestItem :=
  if is_string request_status "pending" then
    ([ApproveAs "member"; ApproveAs "manager"] ++
     (if canAdminGroup s then [ApproveAs "administrator"] else []) ++
     [Deny])%list
  else [].

(** [getUserInitials]. When both [parts[0][0]] and [parts[1][0]] are
    [undefined] their sum is NaN, which has no [toUpperCase]: the call
    throws a TypeError. *)
Definition getUserInitials (email : string) : Completion string :=
  let parts := JsString.split "." (hd EmptyString (JsString.split "@" email)) in
  match parts with
  | p0 :: p1 :: _ =>
      match JsString.first_char p0, JsString.first_char p1 with
      | None, None => Throw ETypeError
      | a, b => Normal (JsString.toUpperCase (JsString.to_string a ++ JsString.to_string b))
      end
  | _ => Normal (JsString.toUpperCase (JsString.substring_0_2 email))
  end.

(** The six handlers of the page that change something on the server. *)
Inductive Action : Type :=
| ActDeleteGroup
| ActRemoveMember (userId : string)
| ActUpdateRole (userId newRole : string)
| ActRevokeInvitation (invitationId : string)
| ActApproveJoinRequest (requestId role : string)
| ActDenyJoinRequest (requestId comment : string).

Definition run (groupId : option string) (a : Action) : M GroupDetail.State unit :=
  match a with
  | ActDeleteGroup => GroupDetail.handleDeleteGroup
  | ActRemoveMember userId => GroupDetail.handleRemoveMember groupId userId
  | ActUpdateRole userId newRole => GroupDetail.handleUpdateRole groupId userId newRole
  | ActRevokeInvitation invitationId =>
      GroupDetail.handleRevokeInvitation groupId invitationId
  | ActApproveJoinRequest requestId role =>
      GroupDetail.handleApproveJoinRequest groupId requestId role
  | ActDenyJoinRequest requestId comment =>
      GroupDetail.handleDenyJoinRequest groupId requestId comment
  end.

(** The call of each handler, for the group in the state. *)
Definition request_of (group : JsValue) (a : Action) : Request :=
  match a with
  | ActDeleteGroup => DeleteGroup (get group "id")
  | ActRemoveMember userId => DeleteGroupMember (get group "id") userId
  | ActUpdateRole userId newRole => PutMemberRole (get group "id") userId newRole
  | ActRevokeInvitation invitationId => DeleteInvitation (get group "id") invitationId
  | ActApproveJoinRequest requestId role =>
      PostApproveJoinRequest (get group "id") requestId role
  | ActDenyJoinRequest requestId comment =>
      PostDenyJoinRequest (get group "id") requestId comment
  end.

(** The prompt of each handler, if it has one. *)
Definition prompt (a : Action) : option string :=
  match a with
  | ActDeleteGroup => Some GroupDetail.confirm_delete_group
  | ActRemoveMember _ => Some GroupDetail.confirm_remove_member
  | ActRevokeInvitation _ => Some GroupDetail.confirm_revoke_invitation
  | ActDenyJoinRequest _ _ => Some GroupDetail.confirm_deny_request
  | ActUpdateRole _ _ | ActApproveJoinRequest _ _ => None
  end.

(** The user accepts the prompt of the handler, if it has one. *)
Definition accepted (h : Host) (fx : Effects) (a : Action) : Prop :=
  match prompt a with
  | Some p => confirm_answer h (confirms fx) p = true
  | None => True
  end.

(** The effects once the prompt, if any, has been shown. *)
Definition asked (a : Action) (fx : Effects) : Effects :=
  match prompt a with
  | Some p => mkEffects (assigned_href fx) (network fx) (console fx) (toasts fx)
                        (navigations fx) (p :: confirms fx)
  | None => fx
  end.

(** The texts of each handler: console label, fallback of the error
    toast, success toast. *)
Definition failure_label (a : Action) : string :=
  match a with
  | ActDeleteGroup => "Failed to delete group:"
  | ActRemoveMember _ => "Failed to remove member:"
  | ActUpdateRole _ _ => "Failed to update member role:"
  | ActRevokeInvitation _ => "Failed to revoke invitation:"
  | ActApproveJoinRequest _ _ => "Failed to approve join request:"
  | ActDenyJoinRequest _ _ => "Failed to deny join request:"
  end.

Definition fallback (a : Action) : string :=
  match a with
  | ActDeleteGroup => "Failed to delete group"
  | ActRemoveMember _ => "Failed to remove member"
  | ActUpdateRole _ _ => "Failed to update member role"
  | ActRevokeInvitation _ => "Failed to revoke invitation"
  | ActApproveJoinRequest _ _ => "Failed to approve join request"
  | ActDenyJoinRequest _ _ => "Failed to deny join request"
  end.

Definition success_message (a : Action) : string :=
  match a with
  | ActDeleteGroup => "Group deleted successfully"
  | ActRemoveMember _ => "Member removed successfully"
  | ActUpdateRole _ _ => "Member role updated successfully"
  | ActRevokeInvitation _ => "Invitation revoked successfully"
  | ActApproveJoinRequest _ _ => "Join request approved successfully"
  | ActDenyJoinRequest _ _ => "Join request denied successfully"
  end.

(** What follows the success toast: the route change of the delete
    handler, the reload of the others. *)
Definition follow_up (groupId : option string) (a : Action) : M GroupDetail.State unit :=
  match a with
  | ActDeleteGroup => navigate "/detail"
  | _ => GroupDetail.loadGroupData groupId
  end.

(** The four fetches of a load, and what it means that the load of
    group [gid], started when the calls [before] were out, reaches one of
    them and that this fetch fails with [error]. *)
Inductive LoadFetch : Type :=
| LoadGroup | LoadMembers | LoadInvitations | LoadJoinRequests.

Definition load_fails_at (f : LoadFetch) (gid : string) (h : Host)
    (before : list Request) (error : AxiosError) : Prop :=
  match f with
  | LoadGroup => GroupDetail.fails_at GroupDetail.FetchGroup gid h before error
  | LoadMembers => GroupDetail.fails_at GroupDetail.FetchMembers gid h before error
  | LoadInvitations =>
      GroupDetail.fails_at GroupDetail.FetchInvitations gid h before error
  | LoadJoinRequests =>
      exists r1 r2 r3,
        transport h before (GetGroup gid) = Resolved r1 /\
        transport h (GetGroup gid :: before) (GetGroupMembers gid) = Resolved r2 /\
        nullish (data r2) = false /\
        GroupDetail.canManage (get (data r1) "membership") = true /\
        transport h (GetGroupMembers gid :: GetGroup gid :: before)
                  (GetGroupInvitations gid) = Resolved r3 /\
        nullish (data r3) = false /\
        transport h (GetGroupInvitations gid :: GetGroupMembers gid
                       :: GetGroup gid :: before)
                  (GetGroupJoinRequests gid true) = Rejected error
  end.

(** The load reaches the place where it reads a property of the body of
    the response to fetch [f], and that body is [null] or [undefined]. The
    body of the group response is read for its membership after the
    members have been stored. *)
Definition load_body_unreadable (f : LoadFetch) (gid : string) (h : Host)
    (before : list Request) : Prop :=
  exists r1 r2,
    transport h before (GetGroup gid) = Resolved r1 /\
    transport h (GetGroup gid :: before) (GetGroupMembers gid) = Resolved r2 /\
    match f with
    | LoadMembers => nullish (data r2) = true
    | LoadGroup => nullish (data r2) = false /\ nullish (data r1) = true
    | LoadInvitations =>
        nullish (data r2) = false /\
        GroupDetail.canManage (get (data r1) "membership") = true /\
        exists r3,
          transport h (GetGroupMembers gid :: GetGroup gid :: before)
                    (GetGroupInvitations gid) = Resolved r3 /\
          nullish (data r3) = true
    | LoadJoinRequests =>
        nullish (data r2) = false /\
        GroupDetail.canManage (get (data r1) "membership") = true /\
        exists r3 r4,
          transport h (GetGroupMembers gid :: GetGroup gid :: before)
                    (GetGroupInvitations gid) = Resolved r3 /\
          nullish (data r3) = false /\
          transport h (GetGroupInvitations gid :: GetGroupMembers gid
                         :: GetGroup gid :: before)
                    (GetGroupJoinRequests gid true) = Resolved r4 /\
          nullish (data r4) = true
    end.

(** The common shape of the handlers after their guard: the call, the
    success toast and what follows inside [try]; the log and the error
    toast in [catch]. *)
Definition attempt (req : Request) (success : string)
    (follow : M GroupDetail.State unit) (label fb : string)
  : M GroupDetail.State unit :=
  try_catch
    (Api.axios_request api req ;;
     toast (ToastSuccess success) ;;
     follow)
    (fun error =>
       console_error label error ;;
       GroupDetail.toast_failure error fb).

End GroupPage.

(* ================================================================== *)
(** ** Dashboard.tsx: the figures of the dashboard *)
(* ================================================================== *)

Module Dashboard.

Record Stats : Type := mkStats {
  totalGroups : nat;
  memberGroups : nat;
  adminGroups : nat;
  pendingInvitations : nat
}.

(** [g.membership?.role === role]; reading [membership] of a group that
    is [null] or [undefined] throws. *)
Definition has_role (role : string) (g : JsValue) : option bool :=
  if nullish g then None
  else Some (is_string (if nullish (get g "membership") then JUndefined
                        else get (get g "membership") "role") role).

(** [userGroups.filter(g => g.membership?.role === role)] *)
Fixpoint filter_role (role : string) (userGroups : list JsValue)
  : option (list JsValue) :=
  match userGroups with
  | [] => Some []
  | g :: rest =>
      match has_role role g with
      | None => None
      | Some keep =>
          match filter_role role rest with
          | None => None
          | Some kept => Some (if keep then g :: kept else kept)
          end
      end
  end.

(** What [loadDashboardData] stores once both lists have arrived: the
    groups shown, the invitations shown, the figures. [None] stands for
    the TypeError that sends the load to its [catch] clause. *)
Definition summarize (userGroups invitations : list JsValue)
  : option (list JsValue * list JsValue * Stats) :=
  match filter_role "administrator" userGroups with
  | None => None
  | Some adminGroups =>
      match filter_role "member" userGroups with
      | None => None
      | Some memberGroups =>
          Some (firstn 5 userGroups, firstn 3 invitations,
                mkStats (length userGroups) (length memberGroups)
                        (length adminGroups) (length invitations))
      end
  end.

End Dashboard.

(* ================================================================== *)
(** ** What a computation leaves alone *)
(* ================================================================== *)

Module Frame.

(** A computation that always ends normally. *)
Definition never_throws {S A : Type} (m : M S A) : Prop :=
  forall h st, exists a st', m h st = (Normal a, st').

(** A computation that does not change what [f] reads in the state of
    the component, however it ends. *)
Definition preserves {S A X : Type} (f : S -> X) (m : M S A) : Prop :=
  forall h st, f (snd (snd (m h st))) = f (snd st).

(** A computation that does not change what [f] reads in the effects,
    however it ends. *)
Definition keeps {S A X : Type} (f : Effects -> X) (m : M S A) : Prop :=
  forall h st, f (fst (snd (m h st))) = f (fst st).

(** The local part of an address: what precedes the first "@". *)
Definition local_part (email : string) : string :=
  hd EmptyString (JsString.split "@" email).

Fixpoint contains (c : ascii) (s : string) : bool :=
  match s with
  | EmptyString => false
  | String c' rest => Ascii.eqb c' c || contains c rest
  end.

End Frame.

(* ================================================================== *)
(** ** encodeURIComponent and number formatting *)
(* ================================================================== *)

Example encodeURIComponent_page :
  encodeURIComponent "https://h.org/deriva/apps/groups/detail/7?x=a b"
  = "https%3A%2F%2Fh.org%2Fderiva%2Fapps%2Fgroups%2Fdetail%2F7%3Fx%3Da%20b".
Proof. reflexivity. Qed.

Example number_to_string_500 : number_to_string 500 = "500".
Proof. reflexivity. Qed.

(** What [encodeURIComponent] returns is made of unreserved characters
    and of percent signs: it can stand as the value of a query parameter. *)
Lemma hex_digit_unreserved (n : nat) : uri_unreserved (hex_digit n) = true.
Proof. do 16 (destruct n as [|n]; [reflexivity|]). destruct n; reflexivity. Qed.

Lemma encodeURIComponent_safe (s : string) :
  Forall (fun c => uri_unreserved c || Ascii.eqb c "%" = true)
         (list_ascii_of_string (encodeURIComponent s)).
Proof.
  induction s as [|c rest IH]; simpl.
  - constructor.
  - destruct (uri_unreserved c) eqn:Hc; simpl.
    + constructor; [now rewrite Hc | exact IH].
    + constructor; [reflexivity|].
      constructor; [now rewrite hex_digit_unreserved|].
      constructor; [now rewrite hex_digit_unreserved | exact IH].
Qed.

(* ================================================================== *)
(** ** The response interceptor *)
(* ================================================================== *)

Section InterceptorFacts.
Context {S : Type}.
Implicit Types (h : Host) (fx : Effects) (s : S) (error : AxiosError).

Lemma status_is_response error r n :
  response error = Some r -> status_is (EAxios error) n = (status r =? n).
Proof. intros H. unfold status_is. simpl. rewrite H. reflexivity. Qed.

Lemma status_is_no_response error n :
  response error = None -> status_is (EAxios error) n = false.
Proof. intros H. unfold status_is. simpl. rewrite H. reflexivity. Qed.

(** Both instances run the same handler with the auth base URL. *)
Lemma setupInterceptors_same i error h fx s :
  Api.setupInterceptors i error h (fx, s)
  = Api.onResponseError (Api.AUTH_API_BASE_URL h) error h (fx, s).
Proof. destruct i; reflexivity. Qed.

Lemma onResponseError_401 base error h fx s :
  status_is (EAxios error) 401 = true ->
  Api.onResponseError base error h (fx, s)
  = (Throw (EAxios error),
     (mkEffects (JString (Api.login_url base (href h)) :: assigned_href fx)
                (network fx) (console fx) (toasts fx) (navigations fx) (confirms fx),
      s)).
Proof. intros H. unfold Api.onResponseError. rewrite H. reflexivity. Qed.

Lemma onResponseError_other base error h fx s :
  status_is (EAxios error) 401 = false ->
  exists m,
    Api.onResponseError (S := S) base error h (fx, s)
    = (Throw (EAxios (Api.with_userMessage error m)), (fx, s)).
Proof.
  intros H. unfold Api.onResponseError. rewrite H.
  eexists. reflexivity.
Qed.

Lemma axios_request_eq i req h fx s :
  Api.axios_request i req h (fx, s)
  = match transport h (network fx) req with
    | Resolved resp => (Normal resp, (logged req fx, s))
    | Rejected error =>
        Api.onResponseError (Api.AUTH_API_BASE_URL h) error h (logged req fx, s)
    end.
Proof.
  unfold Api.axios_request, bind, ask, effects, log_request, effect. simpl.
  destruct (transport h (network fx) req); [reflexivity|].
  apply setupInterceptors_same.
Qed.

(** A call whose answer is a response hands it over and logs the call. *)
Lemma axios_request_resolved i req h fx s resp :
  transport h (network fx) req = Resolved resp ->
  Api.axios_request i req h (fx, s) = (Normal resp, (logged req fx, s)).
Proof. intros H. rewrite axios_request_eq, H. reflexivity. Qed.

(** A call whose answer is an error throws an axios error with the same
    response; it logs the call, may assign the location, and touches
    nothing else. *)
Lemma axios_request_rejected i req h fx s error :
  transport h (network fx) req = Rejected error ->
  exists error' fx',
    Api.axios_request i req h (fx, s) = (Throw (EAxios error'), (fx', s)) /\
    response error' = response error /\
    network fx' = req :: network fx /\
    console fx' = console fx /\ toasts fx' = toasts fx /\
    navigations fx' = navigations fx /\ confirms fx' = confirms fx.
Proof.
  intros H. rewrite axios_request_eq, H.
  destruct (status_is (EAxios error) 401) eqn:E.
  - rewrite onResponseError_401 by exact E.
    do 2 eexists. split; [reflexivity | simpl; repeat split].
  - destruct (onResponseError_other (Api.AUTH_API_BASE_URL h) error h
                (logged req fx) s E) as [m Hm].
    rewrite Hm. do 2 eexists. split; [reflexivity | simpl; repeat split].
Qed.

End InterceptorFacts.

Lemma bind_eq_early {S A B : Type} (m : M S A) (k : A -> M S B) (h : Host)
    (st : Effects * S) :
  bind m k h st
  = match m h st with
    | (Normal a, st') => k a h st'
    | (Throw e, st') => (Throw e, st')
    end.
Proof. reflexivity. Qed.

Lemma bind_request_resolved_early {S B : Type} i req (k : AxiosResponse -> M S B)
    h fx (s : S) resp :
  transport h (network fx) req = Resolved resp ->
  bind (Api.axios_request i req) k h (fx, s) = k resp h (logged req fx, s).
Proof.
  intros H. rewrite bind_eq_early, (axios_request_resolved i req h fx s resp H).
  reflexivity.
Qed.

(** C2. A response with status 401, on the groups instance as on the auth
    instance, makes the interceptor assign to the browser location the
    login URL of the auth service whose [referrer] parameter is the
    encoded URL of the current page, and reject with the error: the call
    that got this answer throws to its caller and never returns a
    response. *)
Theorem unauthorized_redirects_to_login :
  forall (S : Type) (i : Instance) (h : Host) (fx : Effects) (s : S)
         (error : AxiosError) (r : AxiosResponse),
    response error = Some r ->
    status r = 401 ->
    let login :=
      JString (Api.AUTH_API_BASE_URL h ++ "/login?referrer="
               ++ encodeURIComponent (href h)) in
    Api.setupInterceptors i error h (fx, s)
    = (Throw (EAxios error),
       (mkEffects (login :: assigned_href fx) (network fx) (console fx)
                  (toasts fx) (navigations fx) (confirms fx), s))
    /\ forall req,
         transport h (network fx) req = Rejected error ->
         Api.axios_request i req h (fx, s)
         = (Throw (EAxios error),
            (mkEffects (login :: assigned_href fx) (req :: network fx) (console fx)
                       (toasts fx) (navigations fx) (confirms fx), s)).
Proof.
  intros S i h fx s error r Hr H401 login.
  assert (Hs : status_is (EAxios error) 401 = true).
  { rewrite (status_is_response _ _ _ Hr), H401. reflexivity. }
  split.
  - rewrite setupInterceptors_same. now rewrite onResponseError_401.
  - intros req Ht.
    rewrite axios_request_eq, Ht. now rewrite onResponseError_401.
Qed.

Lemma unauthorized_redirects_to_login_witness :
  Api.axios_request (S := unit) api (GetGroup "7")
    (Samples.host (Samples.always (Rejected Samples.unauthorized)) true)
    (no_effects, tt)
  = (Throw (EAxios Samples.unauthorized),
     (mkEffects
        [JString "https://h.org/authn/login?referrer=https%3A%2F%2Fh.org%2Fderiva%2Fapps%2Fgroups%2Fdetail%2F7"]
        [GetGroup "7"] [] [] [] [], tt)).
Proof.
  apply (unauthorized_redirects_to_login unit api
           (Samples.host (Samples.always (Rejected Samples.unauthorized)) true)
           no_effects tt Samples.unauthorized
           (mkResponse 401 (JObject [("error", JString "unauthorized")])));
    reflexivity.
Defined.

(** C4, as stated, fails: an error that carries neither a response nor a
    request (the request could not be set up) gets the default message
    "An unexpected error occurred", not the connectivity message that the
    claim gives to every error without a response. *)
Lemma setup_failure_gets_default_message :
  status_is (EAxios Samples.setup_failure) 401 = false /\
  response Samples.setup_failure = None /\
  fst (Api.setupInterceptors (S := unit) api Samples.setup_failure
         (Samples.host (Samples.always (Rejected Samples.setup_failure)) true)
         (no_effects, tt))
  = Throw (EAxios (Api.with_userMessage Samples.setup_failure
                     (JString "An unexpected error occurred"))) /\
  fst (Api.setupInterceptors (S := unit) api Samples.setup_failure
         (Samples.host (Samples.always (Rejected Samples.setup_failure)) true)
         (no_effects, tt))
  <> Throw (EAxios (Api.with_userMessage Samples.setup_failure
                      (Api.spec_userMessage Samples.setup_failure))).
Proof.
  repeat split; try reflexivity.
  vm_compute. intros H. discriminate H.
Qed.

(** C4, amended. For an error whose status is not 401 the interceptor
    computes one message, stores it in the error's [userMessage] and
    rejects with that error, leaving the network log, the location and the
    component state as they were (no retry, nothing swallowed). The
    message is: when the response has a body, the body's [message], else
    its [error], else its [detail], else "Server error (status)"; when
    there is no response and the request was sent, the connectivity
    message; when there is no response and no request, "An unexpected
    error occurred". *)
Theorem interceptor_attaches_user_message :
  forall (S : Type) (i : Instance) (h : Host) (fx : Effects) (s : S)
         (error : AxiosError),
    status_is (EAxios error) 401 = false ->
    exists m : JsValue,
      Api.setupInterceptors i error h (fx, s)
      = (Throw (EAxios (mkError (response error) (request error) m)), (fx, s))
      /\ (forall r, response error = Some r -> truthy (data r) = true ->
            m = or (get (data r) "message")
                  (or (get (data r) "error")
                     (or (get (data r) "detail")
                        (JString ("Server error (" ++ number_to_string (status r) ++ ")")))))
      /\ (response error = None -> request error = true ->
            m = JString "Unable to connect to server. Please check your internet connection.")
      /\ (response error = None -> request error = false ->
            m = JString "An unexpected error occurred").
Proof.
  intros S i h fx s error H401.
  rewrite setupInterceptors_same. unfold Api.onResponseError. rewrite H401.
  eexists. split; [reflexivity|].
  unfold Api.response_data, Api.server_error_message.
  repeat split.
  - intros r Hr Ht. rewrite Hr, Ht. reflexivity.
  - intros Hr Hq. rewrite Hr, Hq. reflexivity.
  - intros Hr Hq. rewrite Hr, Hq. reflexivity.
Qed.

Lemma interceptor_attaches_user_message_witness :
  exists m : JsValue,
    Api.setupInterceptors (S := unit) api Samples.conflict
      (Samples.host (Samples.always (Rejected Samples.conflict)) true) (no_effects, tt)
    = (Throw (EAxios (mkError (response Samples.conflict) (request Samples.conflict) m)),
       (no_effects, tt))
    /\ m = JString "Group name already exists".
Proof.
  destruct (interceptor_attaches_user_message unit api
              (Samples.host (Samples.always (Rejected Samples.conflict)) true)
              no_effects tt Samples.conflict eq_refl) as [m [Hrun [Hbody _]]].
  exists m. split; [exact Hrun|].
  exact (Hbody _ eq_refl eq_refl).
Defined.

(* ================================================================== *)
(** ** The session manager *)
(* ================================================================== *)

Section SessionFacts.
Implicit Types (h : Host) (fx : Effects) (s : AuthContext.AuthState).

(** [fetchUser], by the outcome of the session call. *)
Lemma fetchUser_eq h fx s :
  AuthContext.fetchUser h (fx, s)
  = match Api.getCurrentUser h (fx, AuthContext.mkAuthState (AuthContext.user s) true None) with
    | (Normal response, (fx', s')) =>
        if nullish (data response) then
          (Normal tt,
           (mkEffects (assigned_href fx') (network fx')
                      (("Auth error:", ETypeError) :: console fx') (toasts fx')
                      (navigations fx') (confirms fx'),
            AuthContext.mkAuthState (AuthContext.user s') false
                                    (Some AuthContext.fetch_error_message)))
        else
          (Normal tt,
           (fx',
            AuthContext.mkAuthState
              (Some (if truthy (get (data response) "client")
                     then AuthContext.legacy_user (data response)
                                                  (get (data response) "client")
                     else AuthContext.flat_user (data response)))
              false (AuthContext.error s')))
    | (Throw err, (fx', s')) =>
        if status_is err 404 then
          (Normal tt, (fx', AuthContext.mkAuthState None false (AuthContext.error s')))
        else
          (Normal tt,
           (mkEffects (assigned_href fx') (network fx')
                      (("Auth error:", err) :: console fx') (toasts fx')
                      (navigations fx') (confirms fx'),
            AuthContext.mkAuthState (AuthContext.user s') false
                                    (Some AuthContext.fetch_error_message)))
    end.
Proof.
  unfold AuthContext.fetchUser, try_finally, try_catch, bind,
    AuthContext.setLoading, AuthContext.setError, AuthContext.setUser, modify.
  cbn [fst snd AuthContext.user AuthContext.loading AuthContext.error].
  destruct (Api.getCurrentUser h (fx, AuthContext.mkAuthState (AuthContext.user s) true None))
    as [[response | err] [fx' s']].
  - unfold AuthContext.normalize, prop, bind.
    destruct (nullish (data response)); unfold throw, ret.
    + reflexivity.
    + destruct (truthy (get (data response) "client")); reflexivity.
  - destruct (status_is err 404); reflexivity.
Qed.

End SessionFacts.

(** C3. When the session call fails with status 404, [fetchUser] ends
    normally with the user absent, no error set and loading off; nothing
    is logged on the console. *)
Theorem session_404_is_empty_session :
  forall (h : Host) (fx : Effects) (s : AuthContext.AuthState)
         (error : AxiosError) (r : AxiosResponse),
    transport h (network fx) GetSession = Rejected error ->
    response error = Some r ->
    status r = 404 ->
    exists fx',
      AuthContext.fetchUser h (fx, s)
      = (Normal tt, (fx', AuthContext.mkAuthState None false None))
      /\ console fx' = console fx
      /\ toasts fx' = toasts fx.
Proof.
  intros h fx s error r Ht Hr H404.
  rewrite fetchUser_eq. unfold Api.getCurrentUser.
  destruct (axios_request_rejected auth GetSession h fx
              (AuthContext.mkAuthState (AuthContext.user s) true None) error Ht)
    as (error' & fx' & Hrun & Hresp & _ & Hcons & Htoast & _).
  rewrite Hrun.
  assert (Hs : status_is (EAxios error') 404 = true).
  { erewrite status_is_response by (rewrite Hresp; exact Hr).
    rewrite H404. reflexivity. }
  rewrite Hs. exists fx'. simpl. auto.
Qed.

Lemma session_404_is_empty_session_witness :
  exists fx',
    AuthContext.fetchUser
      (Samples.host (Samples.always (Rejected Samples.not_found)) true)
      (no_effects,
       AuthContext.mkAuthState (Some (AuthContext.flat_user (JObject []))) false None)
    = (Normal tt, (fx', AuthContext.mkAuthState None false None))
    /\ console fx' = [] /\ toasts fx' = [].
Proof.
  apply (session_404_is_empty_session
           (Samples.host (Samples.always (Rejected Samples.not_found)) true)
           no_effects _ Samples.not_found
           (mkResponse 404 (JObject [("error", JString "no session")])));
    reflexivity.
Defined.

(** C6. When the session call fails with anything but status 404 (an
    error with another status, an error without a response, or a response
    whose body cannot be read), [fetchUser] ends normally with the error
    set to "Failed to fetch user information", loading off, and the user
    as it was before the call; the error is logged on the console. *)
Theorem session_failure_keeps_user :
  forall (h : Host) (fx : Effects) (s : AuthContext.AuthState),
    (exists error,
        transport h (network fx) GetSession = Rejected error /\
        status_is (EAxios error) 404 = false)
    \/ (exists resp,
           transport h (network fx) GetSession = Resolved resp /\
           nullish (data resp) = true) ->
    exists fx' err,
      AuthContext.fetchUser h (fx, s)
      = (Normal tt,
         (fx', AuthContext.mkAuthState (AuthContext.user s) false
                 (Some "Failed to fetch user information")))
      /\ console fx' = ("Auth error:", err) :: console fx.
Proof.
  intros h fx s [(error & Ht & Hs) | (resp & Ht & Hn)];
    rewrite fetchUser_eq; unfold Api.getCurrentUser.
  - destruct (axios_request_rejected auth GetSession h fx
                (AuthContext.mkAuthState (AuthContext.user s) true None) error Ht)
      as (error' & fx' & Hrun & Hresp & _ & Hcons & _).
    rewrite Hrun.
    assert (Hs' : status_is (EAxios error') 404 = false).
    { revert Hs. unfold status_is. simpl. now rewrite Hresp. }
    rewrite Hs'. do 2 eexists. split; [reflexivity|].
    simpl. now rewrite Hcons.
  - rewrite (axios_request_resolved auth GetSession h fx _ resp Ht), Hn.
    do 2 eexists. split; reflexivity.
Qed.

Lemma session_failure_keeps_user_witness :
  exists fx' err,
    AuthContext.fetchUser
      (Samples.host (Samples.always (Rejected Samples.bad_gateway)) true)
      (no_effects,
       AuthContext.mkAuthState (Some (AuthContext.flat_user (JObject []))) false None)
    = (Normal tt,
       (fx', AuthContext.mkAuthState (Some (AuthContext.flat_user (JObject []))) false
               (Some "Failed to fetch user information")))
    /\ console fx' = [("Auth error:", err)].
Proof.
  apply (session_failure_keeps_user
           (Samples.host (Samples.always (Rejected Samples.bad_gateway)) true)
           no_effects
           (AuthContext.mkAuthState (Some (AuthContext.flat_user (JObject []))) false None)).
  left. exists Samples.bad_gateway. split; reflexivity.
Defined.

(** C9, as stated, fails: when the logout call is answered with status
    401, the failure does reach the page, since the response interceptor
    sends the browser to the login URL before [logout] catches the
    error. *)
Lemma logout_unauthorized_assigns_login_url :
  fst (AuthContext.logout None
         (Samples.host (Samples.always (Rejected Samples.unauthorized)) true)
         (no_effects, AuthContext.initial))
  = Normal tt
  /\ assigned_href
       (fst (snd (AuthContext.logout None
                    (Samples.host (Samples.always (Rejected Samples.unauthorized)) true)
                    (no_effects, AuthContext.initial))))
     = [JString "https://h.org/authn/login?referrer=https%3A%2F%2Fh.org%2Fderiva%2Fapps%2Fgroups%2Fdetail%2F7"]
  /\ assigned_href
       (fst (snd (AuthContext.logout None
                    (Samples.host (Samples.always (Rejected Samples.unauthorized)) true)
                    (no_effects, AuthContext.initial))))
     <> assigned_href no_effects.
Proof.
  split; [reflexivity|]. split; [reflexivity|].
  vm_compute. discriminate.
Qed.

(** C9, amended. Whatever the logout call answers, [logout] of the
    context ends normally and leaves the provider's state (user, loading,
    error) as it was; it issues that one call and shows no toast, no
    prompt and no change of route. A response assigns the location exactly
    when its body has a [logout_url], and logs nothing. A failure is logged
    on the console once, under "Logout error:", and goes no further: it
    assigns the location only when its status is 401, and then to the login
    URL, which is the doing of the response interceptor. *)
Theorem logout_never_throws :
  forall (h : Host) (fx : Effects) (s : AuthContext.AuthState)
         (redirectUrl : option string),
    let redirect :=
      or_default redirectUrl
        (origin h ++ or_default (VITE_UI_BASE_PATH (env h)) "/deriva/apps" ++ "/") in
    match transport h (network fx) (GetLogout redirect) with
    | Resolved resp =>
        AuthContext.logout redirectUrl h (fx, s)
        = (Normal tt,
           (mkEffects
              (if truthy (data resp) && truthy (get (data resp) "logout_url")
               then get (data resp) "logout_url" :: assigned_href fx
               else assigned_href fx)
              (GetLogout redirect :: network fx) (console fx) (toasts fx)
              (navigations fx) (confirms fx), s))
    | Rejected error =>
        exists m : JsValue,
          AuthContext.logout redirectUrl h (fx, s)
          = (Normal tt,
             (mkEffects
                (if status_is (EAxios error) 401
                 then JString (Api.AUTH_API_BASE_URL h ++ "/login?referrer="
                               ++ encodeURIComponent (href h)) :: assigned_href fx
                 else assigned_href fx)
                (GetLogout redirect :: network fx)
                (("Logout error:",
                  EAxios (if status_is (EAxios error) 401 then error
                          else mkError (response error) (request error) m))
                   :: console fx)
                (toasts fx) (navigations fx) (confirms fx), s))
    end.
Proof.
  intros h fx s redirectUrl redirect.
  assert (E : AuthContext.logout redirectUrl h (fx, s)
              = try_catch
                  (response <- Api.axios_request auth (GetLogout redirect) ;;
                   if truthy (data response) && truthy (get (data response) "logout_url")
                   then assign_href (get (data response) "logout_url")
                   else ret tt)
                  (fun error => console_error "Logout error:" error) h (fx, s))
    by reflexivity.
  rewrite E. clear E. unfold try_catch.
  destruct (transport h (network fx) (GetLogout redirect)) as [resp | error] eqn:Ht.
  - rewrite (bind_request_resolved_early _ _ _ _ _ _ _ Ht).
    destruct (truthy (data resp) && truthy (get (data resp) "logout_url"));
      reflexivity.
  - rewrite bind_eq_early, axios_request_eq, Ht.
    destruct (status_is (EAxios error) 401) eqn:H401.
    + rewrite (onResponseError_401 _ _ _ _ _ H401).
      exists JUndefined. reflexivity.
    + unfold Api.onResponseError. rewrite H401.
      eexists. reflexivity.
Qed.

(** What the provider stores after a session call that answers with a
    readable payload. *)
Lemma user_after_fetch_eq :
  forall (payload : JsValue),
    nullish payload = false ->
    AuthContext.user_after_fetch payload
    = Some (if truthy (get payload "client")
            then AuthContext.legacy_user payload (get payload "client")
            else AuthContext.flat_user payload).
Proof.
  intros payload Hn. unfold AuthContext.user_after_fetch.
  rewrite fetchUser_eq. unfold Api.getCurrentUser.
  rewrite (axios_request_resolved auth GetSession (AuthContext.session_host payload)
             no_effects _ (mkResponse 200 payload) eq_refl).
  cbn [data]. rewrite Hn. reflexivity.
Qed.

(** The two shapes give the same user when the payload carries a
    verification flag that is truthy ([true], or a non-empty string). *)
Lemma shapes_agree_on_truthy_flag :
  forall (f : AuthContext.UserFields) (v : JsValue),
    AuthContext.f_email_verified f = Some v ->
    truthy v = true ->
    AuthContext.user_after_fetch (AuthContext.legacy_payload f)
    = AuthContext.user_after_fetch (AuthContext.flat_payload f).
Proof.
  intros [i e n fn ev gm pc] v Hev Hv. simpl in Hev. subst ev.
  rewrite !user_after_fetch_eq by reflexivity.
  unfold AuthContext.legacy_user, AuthContext.flat_user.
  destruct gm, pc; simpl; unfold or; rewrite Hv; reflexivity.
Qed.

(** In the legacy shape a flag that is missing becomes "unknown". *)
Lemma legacy_defaults_missing_flag :
  forall (f : AuthContext.UserFields),
    AuthContext.f_email_verified f = None ->
    option_map AuthContext.email_verified
      (AuthContext.user_after_fetch (AuthContext.legacy_payload f))
    = Some (JString "unknown").
Proof.
  intros [i e n fn ev gm pc] Hev. simpl in Hev. subst ev.
  rewrite user_after_fetch_eq by reflexivity.
  destruct gm, pc; reflexivity.
Qed.

(** C1, on the code. For the same user fields without a verification
    flag, the legacy shape yields [email_verified = "unknown"] and the
    flat shape yields [email_verified = undefined]: the two records
    differ, and the flat branch does not apply the default. With the flag
    [false] the legacy shape yields "unknown" and the flat shape [false]. *)
Theorem flat_shape_skips_flag_default :
  option_map AuthContext.email_verified
    (AuthContext.user_after_fetch
       (AuthContext.legacy_payload (AuthContext.alice None)))
  = Some (JString "unknown")
  /\ option_map AuthContext.email_verified
       (AuthContext.user_after_fetch
          (AuthContext.flat_payload (AuthContext.alice None)))
     = Some JUndefined
  /\ AuthContext.user_after_fetch (AuthContext.legacy_payload (AuthContext.alice None))
     <> AuthContext.user_after_fetch (AuthContext.flat_payload (AuthContext.alice None))
  /\ option_map AuthContext.email_verified
       (AuthContext.user_after_fetch
          (AuthContext.legacy_payload (AuthContext.alice (Some (JBool false)))))
     = Some (JString "unknown")
  /\ option_map AuthContext.email_verified
       (AuthContext.user_after_fetch
          (AuthContext.flat_payload (AuthContext.alice (Some (JBool false)))))
     = Some (JBool false).
Proof.
  repeat split; try reflexivity.
  vm_compute. intros H. discriminate H.
Qed.

(* ================================================================== *)
(** ** Expired invitations on the pages *)
(* ================================================================== *)

(** The inbox shows a lapsed pending invitation as expired and offers no
    accept button. *)
Lemma inbox_shows_lapsed_as_expired :
  forall (c : Views.Clock) (invitation : Views.GroupInvitation),
    Views.isInvitationExpired c (Views.inv_expires_at invitation) = true ->
    Views.inv_status invitation = "pending" ->
    Views.inbox_status (Views.inbox_row c invitation) = "Expired"
    /\ Views.inbox_status_class (Views.inbox_row c invitation) = "bg-red-100 text-red-800"
    /\ Views.inbox_accept_button (Views.inbox_row c invitation) = false
    /\ In (Views.Lit "Expired") (Views.inbox_dates (Views.inbox_row c invitation)).
Proof.
  intros c invitation He Hs. unfold Views.inbox_row. simpl.
  rewrite He, Hs. simpl. intuition.
Qed.

(** The invitation-link page shows a lapsed invitation as expired,
    whatever the server says about its validity. *)
Lemma accept_page_shows_lapsed_as_expired :
  forall (c : Views.Clock) (signed_in : bool) (info : Views.InvitationInfo),
    Views.isInvitationExpired c (Views.info_expires_at info) = true ->
    Views.accept_page c signed_in info
    = Some ([Views.Lit "Expired "; Views.Formatted (Views.info_expires_at info)],
            Views.PanelExpired).
Proof.
  intros c signed_in info He. unfold Views.accept_page. rewrite He.
  unfold Views.isInvitationExpired in He.
  destruct (Views.parse c (Views.info_expires_at info)); [reflexivity | discriminate].
Qed.

(** The invitations tab of the group page never looks at the clock. *)
Lemma group_detail_row_ignores_clock :
  forall (c c' : Views.Clock) (invitation : Views.GroupInvitation),
    Views.group_detail_row c invitation = Views.group_detail_row c' invitation.
Proof. reflexivity. Qed.

(** C5, on the code. An invitation that lapsed in 2020 and still has
    status [pending] is shown, in 2026, by the invitations tab of the
    group page with the label "Expires", the yellow badge "pending" and a
    Revoke button, while the inbox shows the same invitation as
    "Expired". *)
Theorem group_tab_shows_lapsed_as_pending :
  Views.isInvitationExpired Views.clock_2026 (Views.inv_expires_at Views.lapsed) = true
  /\ Views.inv_status Views.lapsed = "pending"
  /\ Views.group_detail_row Views.clock_2026 Views.lapsed
     = Views.mkTabRow "bob@example.org"
         [Views.Lit "Invited "; Views.Formatted "2019-12-01T00:00:00.000Z";
          Views.Lit " • "; Views.Lit "Expires ";
          Views.Formatted "2020-01-01T00:00:00.000Z"]
         "bg-gray-100 text-gray-800" "member"
         "bg-yellow-100 text-yellow-800" "pending" true
  /\ Views.inbox_status (Views.inbox_row Views.clock_2026 Views.lapsed) = "Expired".
Proof. repeat split. Qed.

(* ================================================================== *)
(** ** The group page: loading *)
(* ================================================================== *)

Section LoadFacts.
Implicit Types (h : Host) (fx : Effects) (s : GroupDetail.State) (gid : string).

(** The [catch] clause of [loadGroupData]: it logs the error and shows
    one error toast; it issues no call and changes no state cell. *)
Lemma loadGroupData_catch_spec err h fx s :
  exists fx',
    GroupDetail.loadGroupData_catch err h (fx, s) = (Normal tt, (fx', s)) /\
    network fx' = network fx /\
    console fx' = (GroupDetail.load_failed_label, err) :: console fx /\
    (exists t, toasts fx' = ToastError t :: toasts fx) /\
    confirms fx' = confirms fx.
Proof.
  unfold GroupDetail.loadGroupData_catch, bind, console_error, toast, navigate, effect.
  cbn [fst snd].
  destruct (status_is err 403); [|destruct (status_is err 404)];
    eexists; (split; [reflexivity|]); simpl; repeat split; eexists; reflexivity.
Qed.

(** A load whose [try] block throws takes the failure path. *)
Lemma loadGroupData_failure gid h fx s err fx1 s1 :
  (gid =? "")%string = false ->
  GroupDetail.loadGroupData_try gid h (fx, s) = (Throw err, (fx1, s1)) ->
  exists fx',
    GroupDetail.loadGroupData (Some gid) h (fx, s) = (Normal tt, (fx', GroupDetail.loaded s1)) /\
    network fx' = network fx1 /\
    console fx' = (GroupDetail.load_failed_label, err) :: console fx1 /\
    (exists t, toasts fx' = ToastError t :: toasts fx1) /\
    confirms fx' = confirms fx1.
Proof.
  intros Hgid Htry.
  unfold GroupDetail.loadGroupData. rewrite Hgid.
  unfold try_finally, try_catch. rewrite Htry.
  destruct (loadGroupData_catch_spec err h fx1 s1) as (fx' & Hc & Hrest).
  rewrite Hc. exists fx'. split; [reflexivity | exact Hrest].
Qed.

(** A load whose [try] block ends normally. *)
Lemma loadGroupData_success gid h fx s fx1 s1 :
  (gid =? "")%string = false ->
  GroupDetail.loadGroupData_try gid h (fx, s) = (Normal tt, (fx1, s1)) ->
  GroupDetail.loadGroupData (Some gid) h (fx, s) = (Normal tt, (fx1, GroupDetail.loaded s1)).
Proof.
  intros Hgid Htry.
  unfold GroupDetail.loadGroupData. rewrite Hgid.
  unfold try_finally, try_catch. rewrite Htry. reflexivity.
Qed.

End LoadFacts.

Section Stepping.
Context {S : Type}.

Lemma bind_eq {A B} (m : M S A) (k : A -> M S B) (h : Host) (st : Effects * S) :
  bind m k h st
  = match m h st with
    | (Normal a, st') => k a h st'
    | (Throw e, st') => (Throw e, st')
    end.
Proof. reflexivity. Qed.

Lemma bind_modify {B} (f : S -> S) (k : unit -> M S B) h fx s :
  bind (modify f) k h (fx, s) = k tt h (fx, f s).
Proof. reflexivity. Qed.

Lemma bind_prop {B} (v : JsValue) (key : string) (k : JsValue -> M S B) h st :
  bind (prop v key) k h st
  = if nullish v then (Throw ETypeError, st) else k (get v key) h st.
Proof. unfold bind, prop. destruct (nullish v); reflexivity. Qed.

Lemma bind_request_resolved {B} i req (k : AxiosResponse -> M S B) h fx s resp :
  transport h (network fx) req = Resolved resp ->
  bind (Api.axios_request i req) k h (fx, s) = k resp h (logged req fx, s).
Proof.
  intros H. rewrite bind_eq, (axios_request_resolved i req h fx s resp H). reflexivity.
Qed.

Lemma bind_throw_eq {A B} (m : M S A) (k : A -> M S B) h st e st' :
  m h st = (Throw e, st') -> bind m k h st = (Throw e, st').
Proof. intros H. rewrite bind_eq, H. reflexivity. Qed.

End Stepping.

Ltac setters :=
  unfold GroupDetail.setLoading, GroupDetail.setGroup, GroupDetail.setMembers,
    GroupDetail.setInvitations, GroupDetail.setJoinRequests.

Ltac projections :=
  cbn [GroupDetail.group GroupDetail.members GroupDetail.invitations
       GroupDetail.joinRequests GroupDetail.loading GroupDetail.activeTab
       GroupDetail.showInviteModal GroupDetail.showEditModal].

Lemma truthy_get_not_nullish (v : JsValue) (k : string) :
  truthy (get v k) = true -> nullish v = false.
Proof. destruct v; simpl; congruence. Qed.

Lemma canManage_not_nullish (v : JsValue) (k : string) :
  GroupDetail.canManage (get v k) = true -> nullish v = false.
Proof.
  unfold GroupDetail.canManage. intros H.
  apply andb_prop in H. apply (truthy_get_not_nullish v k), H.
Qed.

(** The [try] block for a group that the user does not manage: the group
    and the members are fetched and nothing else; the invitations and the
    join requests are not written. *)
Lemma loadGroupData_try_not_manager gid h fx s r1 :
  transport h (network fx) (GetGroup gid) = Resolved r1 ->
  GroupDetail.canManage (get (data r1) "membership") = false ->
  exists r fx1 s1,
    GroupDetail.loadGroupData_try gid h (fx, s) = (r, (fx1, s1)) /\
    network fx1 = GetGroupMembers gid :: GetGroup gid :: network fx /\
    GroupDetail.invitations s1 = GroupDetail.invitations s /\
    GroupDetail.joinRequests s1 = GroupDetail.joinRequests s.
Proof.
  intros Hg Hm.
  unfold GroupDetail.loadGroupData_try, Api.getGroup, Api.getGroupMembers. setters.
  rewrite bind_modify, (bind_request_resolved _ _ _ _ _ _ _ Hg), bind_modify.
  destruct (transport h (network (logged (GetGroup gid) fx)) (GetGroupMembers gid))
    as [r2 | e2] eqn:Hmem.
  - rewrite (bind_request_resolved _ _ _ _ _ _ _ Hmem), bind_prop.
    destruct (nullish (data r2)).
    + do 3 eexists. split; [reflexivity|]. simpl. auto.
    + rewrite bind_modify, bind_prop.
      destruct (nullish (data r1)).
      * do 3 eexists. split; [reflexivity|]. simpl. auto.
      * rewrite Hm. unfold ret. do 3 eexists. split; [reflexivity|]. simpl. auto.
  - destruct (axios_request_rejected api _ h _
                (GroupDetail.mkState (data r1) (GroupDetail.members s)
                   (GroupDetail.invitations s) (GroupDetail.joinRequests s) true
                   (GroupDetail.activeTab s) (GroupDetail.showInviteModal s)
                   (GroupDetail.showEditModal s)) e2 Hmem)
      as (e' & fx' & Hrun & _ & Hnet & _).
    projections. rewrite (bind_throw_eq _ _ _ _ _ _ Hrun).
    do 3 eexists. split; [reflexivity|]. simpl. auto.
Qed.

(** C10. When the fetched group carries no membership of the user, or a
    membership whose role is neither administrator nor manager, a load of
    the page issues the group call and the members call and no other: no
    invitations call, no join-requests call. The invitations and the join
    requests of the page are what they were before the load, so that on
    the first load they are still the empty lists of the initial state. *)
Theorem plain_member_load_skips_management_fetches :
  forall (gid : string) (h : Host) (fx : Effects) (s : GroupDetail.State)
         (r1 : AxiosResponse),
    (gid =? "")%string = false ->
    transport h (network fx) (GetGroup gid) = Resolved r1 ->
    GroupDetail.canManage (get (data r1) "membership") = false ->
    exists fx' s',
      GroupDetail.loadGroupData (Some gid) h (fx, s) = (Normal tt, (fx', s'))
      /\ network fx' = GetGroupMembers gid :: GetGroup gid :: network fx
      /\ GroupDetail.invitations s' = GroupDetail.invitations s
      /\ GroupDetail.joinRequests s' = GroupDetail.joinRequests s
      /\ (s = GroupDetail.initial ->
          GroupDetail.invitations s' = JArray [] /\
          GroupDetail.joinRequests s' = JArray []).
Proof.
  intros gid h fx s r1 Hgid Hg Hm.
  destruct (loadGroupData_try_not_manager gid h fx s r1 Hg Hm)
    as (r & fx1 & s1 & Htry & Hnet & Hinv & Hreq).
  assert (Hinit : s = GroupDetail.initial ->
                  GroupDetail.invitations s1 = JArray [] /\
                  GroupDetail.joinRequests s1 = JArray []).
  { intros ->. rewrite Hinv, Hreq. split; reflexivity. }
  destruct r as [[] | err].
  - rewrite (loadGroupData_success _ _ _ _ _ _ Hgid Htry).
    do 2 eexists. split; [reflexivity|]. simpl. auto.
  - destruct (loadGroupData_failure _ _ _ _ _ _ _ Hgid Htry)
      as (fx' & Hrun & Hnet' & _).
    rewrite Hrun. do 2 eexists. split; [reflexivity|]. simpl.
    rewrite Hnet'. auto.
Qed.

Lemma plain_member_load_skips_management_fetches_witness :
  exists fx' s',
    GroupDetail.loadGroupData (Some "7")
      (Samples.host (Samples.groups_service "member" Samples.never) true)
      (no_effects, GroupDetail.initial)
    = (Normal tt, (fx', s'))
    /\ network fx' = [GetGroupMembers "7"; GetGroup "7"]
    /\ GroupDetail.invitations s' = JArray []
    /\ GroupDetail.joinRequests s' = JArray [].
Proof.
  destruct (plain_member_load_skips_management_fetches "7"
              (Samples.host (Samples.groups_service "member" Samples.never) true)
              no_effects GroupDetail.initial
              (mkResponse 200 (Samples.group_with_role "member"))
              eq_refl eq_refl eq_refl)
    as (fx' & s' & Hrun & Hnet & Hinv & Hreq & _).
  exists fx', s'. repeat split; assumption.
Defined.

(** C7. When the group fetch, the members fetch or the invitations fetch
    of a page load fails, the load goes to its [catch] clause (the error
    is logged, one error toast is shown) and ends with loading off; the
    failed fetch is the last call of that load, so that no later fetch,
    and in particular no join-requests fetch, is issued. *)
Theorem failed_fetch_ends_the_load :
  forall (f : GroupDetail.Fetch) (gid : string) (h : Host) (fx : Effects)
         (s : GroupDetail.State) (error : AxiosError),
    (gid =? "")%string = false ->
    GroupDetail.fails_at f gid h (network fx) error ->
    exists fx' s' err,
      GroupDetail.loadGroupData (Some gid) h (fx, s) = (Normal tt, (fx', s'))
      /\ network fx' = (GroupDetail.issued_until f gid ++ network fx)%list
      /\ (forall b, ~ In (GetGroupJoinRequests gid b) (GroupDetail.issued_until f gid))
      /\ console fx' = ("Failed to load group data:", EAxios err) :: console fx
      /\ response err = response error
      /\ (exists t, toasts fx' = ToastError t :: toasts fx)
      /\ GroupDetail.loading s' = false.
Proof.
  intros f gid h fx s error Hgid Hfail.
  assert (Htry : exists err fx1 s1,
             GroupDetail.loadGroupData_try gid h (fx, s)
             = (Throw (EAxios err), (fx1, s1)) /\
             response err = response error /\
             network fx1 = (GroupDetail.issued_until f gid ++ network fx)%list /\
             console fx1 = console fx /\ toasts fx1 = toasts fx).
  { unfold GroupDetail.loadGroupData_try, Api.getGroup, Api.getGroupMembers,
      Api.getGroupInvitations. setters. rewrite bind_modify.
    destruct f; simpl in Hfail.
    - destruct (axios_request_rejected api _ h fx
                  (GroupDetail.mkState (GroupDetail.group s) (GroupDetail.members s)
                     (GroupDetail.invitations s) (GroupDetail.joinRequests s) true
                     (GroupDetail.activeTab s) (GroupDetail.showInviteModal s)
                     (GroupDetail.showEditModal s)) error Hfail)
        as (e' & fx1 & Hrun & Hresp & Hnet & Hcons & Htoast & _).
      rewrite (bind_throw_eq _ _ _ _ _ _ Hrun).
      do 3 eexists. split; [reflexivity|]. auto.
    - destruct Hfail as [[r1 Hg] Hmem].
      rewrite (bind_request_resolved _ _ _ _ _ _ _ Hg), bind_modify. projections.
      destruct (axios_request_rejected api _ h (logged (GetGroup gid) fx)
                  (GroupDetail.mkState (data r1) (GroupDetail.members s)
                     (GroupDetail.invitations s) (GroupDetail.joinRequests s) true
                     (GroupDetail.activeTab s) (GroupDetail.showInviteModal s)
                     (GroupDetail.showEditModal s)) error Hmem)
        as (e' & fx1 & Hrun & Hresp & Hnet & Hcons & Htoast & _).
      rewrite (bind_throw_eq _ _ _ _ _ _ Hrun).
      do 3 eexists. split; [reflexivity|]. auto.
    - destruct Hfail as (r1 & r2 & Hg & Hmem & Hn2 & Hcan & Hinv).
      rewrite (bind_request_resolved _ _ _ _ _ _ _ Hg), bind_modify. projections.
      rewrite (bind_request_resolved api _ _ h (logged (GetGroup gid) fx) _ _ Hmem).
      rewrite bind_prop, Hn2, bind_modify, bind_prop.
      rewrite (canManage_not_nullish _ _ Hcan), Hcan. projections.
      destruct (axios_request_rejected api _ h
                  (logged (GetGroupMembers gid) (logged (GetGroup gid) fx))
                  (GroupDetail.mkState (data r1) (get (data r2) "members")
                     (GroupDetail.invitations s) (GroupDetail.joinRequests s) true
                     (GroupDetail.activeTab s) (GroupDetail.showInviteModal s)
                     (GroupDetail.showEditModal s)) error Hinv)
        as (e' & fx1 & Hrun & Hresp & Hnet & Hcons & Htoast & _).
      rewrite (bind_throw_eq _ _ _ _ _ _ Hrun).
      do 3 eexists. split; [reflexivity|]. auto. }
  destruct Htry as (err & fx1 & s1 & Htry & Hresp & Hnet & Hcons & Htoast).
  destruct (loadGroupData_failure _ _ _ _ _ _ _ Hgid Htry)
    as (fx' & Hrun & Hnet' & Hcons' & [t Htoast'] & _).
  exists fx', (GroupDetail.loaded s1), err.
  split; [exact Hrun|].
  split; [now rewrite Hnet', Hnet|].
  split; [intros b; destruct f; simpl; intuition discriminate|].
  split; [now rewrite Hcons', Hcons|].
  split; [exact Hresp|].
  split; [exists t; now rewrite Htoast', Htoast | reflexivity].
Qed.

Lemma failed_fetch_ends_the_load_witness :
  exists fx' s' err,
    GroupDetail.loadGroupData (Some "7")
      (Samples.host (Samples.groups_service "manager" Samples.is_invitations_fetch) true)
      (no_effects, GroupDetail.initial)
    = (Normal tt, (fx', s'))
    /\ network fx' = [GetGroupInvitations "7"; GetGroupMembers "7"; GetGroup "7"]
    /\ console fx' = [("Failed to load group data:", EAxios err)]
    /\ GroupDetail.loading s' = false.
Proof.
  destruct (failed_fetch_ends_the_load GroupDetail.FetchInvitations "7"
              (Samples.host (Samples.groups_service "manager" Samples.is_invitations_fetch) true)
              no_effects GroupDetail.initial Samples.bad_gateway eq_refl)
    as (fx' & s' & err & Hrun & Hnet & _ & Hcons & _ & _ & Hload).
  - exists (mkResponse 200 (Samples.group_with_role "manager")),
           (mkResponse 200 (JObject [("members", JArray [])])).
    repeat split; reflexivity.
  - exists fx', s', err. repeat split; assumption.
Defined.

(* ================================================================== *)
(** ** The group page: destructive actions *)
(* ================================================================== *)

Section QuietFacts.
Context {S : Type}.

Lemma quiet_ret {A} (a : A) : quiet (S := S) (ret a).
Proof. intros h st. reflexivity. Qed.

Lemma quiet_throw {A} (e : Exn) : quiet (S := S) (A := A) (throw e).
Proof. intros h st. reflexivity. Qed.

Lemma quiet_bind {A B} (m : M S A) (k : A -> M S B) :
  quiet m -> (forall a, quiet (k a)) -> quiet (bind m k).
Proof.
  intros Hm Hk h st. unfold bind. specialize (Hm h st).
  destruct (m h st) as [[a | e] st']; simpl in *.
  - rewrite Hk. exact Hm.
  - exact Hm.
Qed.

Lemma quiet_try_catch {A} (body : M S A) (handler : Exn -> M S A) :
  quiet body -> (forall e, quiet (handler e)) -> quiet (try_catch body handler).
Proof.
  intros Hb Hh h st. unfold try_catch. specialize (Hb h st).
  destruct (body h st) as [[a | e] st']; simpl in *.
  - exact Hb.
  - rewrite Hh. exact Hb.
Qed.

Lemma quiet_try_finally {A} (body : M S A) (final : M S unit) :
  quiet body -> quiet final -> quiet (try_finally body final).
Proof.
  intros Hb Hf h st. unfold try_finally. specialize (Hb h st).
  destruct (body h st) as [r st']. specialize (Hf h st').
  destruct (final h st') as [[[] | e] st'']; simpl in *; congruence.
Qed.

Lemma quiet_ask : quiet (S := S) ask.
Proof. intros h st. reflexivity. Qed.

Lemma quiet_effects : quiet (S := S) effects.
Proof. intros h st. reflexivity. Qed.

Lemma quiet_get_state : quiet (S := S) get_state.
Proof. intros h st. reflexivity. Qed.

Lemma quiet_modify (f : S -> S) : quiet (modify f).
Proof. intros h st. reflexivity. Qed.

Lemma quiet_prop (v : JsValue) (k : string) : quiet (S := S) (prop v k).
Proof. intros h st. unfold prop. destruct (nullish v); reflexivity. Qed.

Lemma quiet_assign_href (v : JsValue) : quiet (S := S) (assign_href v).
Proof. intros h st. reflexivity. Qed.

Lemma quiet_log_request (r : Request) : quiet (S := S) (log_request r).
Proof. intros h st. reflexivity. Qed.

Lemma quiet_console_error (l : string) (e : Exn) : quiet (S := S) (console_error l e).
Proof. intros h st. reflexivity. Qed.

Lemma quiet_toast (t : Toast) : quiet (S := S) (toast t).
Proof. intros h st. reflexivity. Qed.

Lemma quiet_navigate (path : string) : quiet (S := S) (navigate path).
Proof. intros h st. reflexivity. Qed.

Lemma quiet_if {A} (b : bool) (m1 m2 : M S A) :
  quiet m1 -> quiet m2 -> quiet (if b then m1 else m2).
Proof. destruct b; auto. Qed.

End QuietFacts.

Create HintDb quiet.
#[export] Hint Resolve quiet_ret quiet_throw quiet_bind quiet_try_catch
  quiet_try_finally quiet_ask quiet_effects quiet_get_state quiet_modify
  quiet_prop quiet_assign_href quiet_log_request quiet_console_error
  quiet_toast quiet_navigate quiet_if : quiet.

Ltac quiet_steps := repeat (intros; first
  [ solve [auto with quiet]
  | apply quiet_bind | apply quiet_try_catch | apply quiet_try_finally
  | apply quiet_if ]).

Lemma quiet_axios_request {S : Type} (i : Instance) (req : Request) :
  quiet (S := S) (Api.axios_request i req).
Proof.
  intros h [fx s]. rewrite axios_request_eq.
  destruct (transport h (network fx) req) as [resp | error]; [reflexivity|].
  unfold Api.onResponseError.
  destruct (status_is (EAxios error) 401); reflexivity.
Qed.

#[export] Hint Resolve quiet_axios_request : quiet.

Lemma quiet_loadGroupData (groupId : option string) :
  quiet (GroupDetail.loadGroupData groupId).
Proof.
  unfold GroupDetail.loadGroupData.
  destruct groupId as [gid|]; [|auto with quiet].
  destruct (gid =? "")%string; [auto with quiet|].
  unfold GroupDetail.loadGroupData_try, GroupDetail.loadGroupData_catch,
    Api.getGroup, Api.getGroupMembers, Api.getGroupInvitations,
    Api.getGroupJoinRequests.
  setters. quiet_steps.
Qed.

#[export] Hint Resolve quiet_loadGroupData : quiet.

Section GuardFacts.
Implicit Types (h : Host) (fx : Effects) (s : GroupDetail.State).

(** The guard of a destructive handler, when the user cancels (or when
    no group is loaded): nothing happens but, at most, the prompt. *)
Lemma guarded_cancel prompt action h fx s :
  confirm_answer h (confirms fx) prompt = false ->
  exists fx',
    GroupDetail.guarded prompt action h (fx, s) = (Normal tt, (fx', s)) /\
    network fx' = network fx /\ toasts fx' = toasts fx /\
    navigations fx' = navigations fx /\ console fx' = console fx /\
    assigned_href fx' = assigned_href fx.
Proof.
  intros Hno. unfold GroupDetail.guarded, bind, get_state, confirm. cbn [fst snd].
  destruct (truthy (GroupDetail.group s)); cbn [negb fst snd].
  - rewrite Hno. cbn [negb]. eexists. split; [reflexivity|]. simpl. auto.
  - eexists. split; [reflexivity|]. auto.
Qed.

(** The guard, when a call goes out: the prompt was shown in this run and
    the user accepted it. *)
Lemma guarded_call prompt action h fx s r fx' s' :
  (forall g, quiet (action g)) ->
  GroupDetail.guarded prompt action h (fx, s) = (r, (fx', s')) ->
  network fx' <> network fx ->
  confirms fx' = prompt :: confirms fx /\
  confirm_answer h (confirms fx) prompt = true.
Proof.
  intros Hq. unfold GroupDetail.guarded, bind, get_state, confirm. cbn [fst snd].
  destruct (truthy (GroupDetail.group s)); cbn [negb fst snd].
  - destruct (confirm_answer h (confirms fx) prompt); cbn [negb].
    + intros Hrun _. split; [|reflexivity].
      specialize (Hq (GroupDetail.group s) h
                     (mkEffects (assigned_href fx) (network fx) (console fx) (toasts fx)
                                (navigations fx) (prompt :: confirms fx), s)).
      rewrite Hrun in Hq. exact Hq.
    + unfold ret. intros Hrun Hnet. injection Hrun as _ <- _.
      exfalso. apply Hnet. reflexivity.
  - unfold ret. intros Hrun Hnet. injection Hrun as _ <- _.
    exfalso. apply Hnet. reflexivity.
Qed.

End GuardFacts.

(** C8. Each destructive handler of the group page (delete group, remove
    member, revoke invitation, deny join request) asks [window.confirm]
    before it calls the service. When the user cancels, the handler
    returns without issuing a call, and the state of the page (the
    invitations among it), the toasts, the route and the console are what
    they were. Whenever a handler does issue a call, its prompt was shown
    in that run and accepted. *)
Theorem destructive_actions_need_confirmation :
  forall (a : GroupDetail.Destructive) (groupId : option string)
         (h : Host) (fx : Effects) (s : GroupDetail.State),
    (confirm_answer h (confirms fx) (GroupDetail.prompt_of a) = false ->
     exists fx',
       GroupDetail.handler groupId a h (fx, s) = (Normal tt, (fx', s)) /\
       network fx' = network fx /\ toasts fx' = toasts fx /\
       navigations fx' = navigations fx /\ console fx' = console fx /\
       assigned_href fx' = assigned_href fx)
    /\ (forall r fx' s',
          GroupDetail.handler groupId a h (fx, s) = (r, (fx', s')) ->
          network fx' <> network fx ->
          confirms fx' = GroupDetail.prompt_of a :: confirms fx /\
          confirm_answer h (confirms fx) (GroupDetail.prompt_of a) = true).
Proof.
  intros a groupId h fx s. split.
  - intros Hno. destruct a; apply guarded_cancel; exact Hno.
  - intros r fx' s' Hrun Hnet.
    destruct a; simpl in Hrun;
      (eapply guarded_call; [| exact Hrun | exact Hnet]);
      intros g; unfold GroupDetail.toast_failure, Api.deleteGroup,
        Api.removeGroupMember, Api.revokeInvitation, Api.denyJoinRequest;
      quiet_steps.
Qed.

Lemma destructive_actions_need_confirmation_witness :
  exists fx',
    GroupDetail.handler (Some "7") (GroupDetail.RevokeInvitation "inv-1")
      (Samples.host (Samples.groups_service "manager" Samples.never) false)
      (no_effects,
       GroupDetail.mkState (Samples.group_with_role "manager") (JArray [])
         (JArray [JObject [("id", JString "inv-1"); ("status", JString "pending")]])
         (JArray []) false GroupDetail.TabInvitations false false)
    = (Normal tt,
       (fx',
        GroupDetail.mkState (Samples.group_with_role "manager") (JArray [])
          (JArray [JObject [("id", JString "inv-1"); ("status", JString "pending")]])
          (JArray []) false GroupDetail.TabInvitations false false))
    /\ network fx' = [].
Proof.
  destruct (proj1 (destructive_actions_need_confirmation
                     (GroupDetail.RevokeInvitation "inv-1") (Some "7")
                     (Samples.host (Samples.groups_service "manager" Samples.never) false)
                     no_effects
                     (GroupDetail.mkState (Samples.group_with_role "manager") (JArray [])
                        (JArray [JObject [("id", JString "inv-1");
                                          ("status", JString "pending")]])
                        (JArray []) false GroupDetail.TabInvitations false false))
                  eq_refl)
    as (fx' & Hrun & Hnet & _).
  exists fx'. split; assumption.
Defined.

Lemma logout_never_throws_witness :
  exists m : JsValue,
    AuthContext.logout None
      (Samples.host (Samples.always (Rejected Samples.bad_gateway)) true)
      (no_effects, AuthContext.initial)
    = (Normal tt,
       (mkEffects [] [GetLogout "https://h.org/deriva/apps/"]
          [("Logout error:",
            EAxios (mkError (response Samples.bad_gateway)
                            (request Samples.bad_gateway) m))]
          [] [] [], AuthContext.initial)).
Proof.
  exact (logout_never_throws
           (Samples.host (Samples.always (Rejected Samples.bad_gateway)) true)
           no_effects AuthContext.initial None).
Defined.

(* ================================================================== *)
(** ** The login URL *)
(* ================================================================== *)

Lemma append_cancel_l (a x y : string) : (a ++ x = a ++ y)%string -> x = y.
Proof.
  induction a as [|c a IH]; simpl; intros H; [exact H|].
  injection H as H. exact (IH H).
Qed.

Lemma percent_byte (c : ascii) :
  ascii_of_nat (16 * JsString.hex_value (hex_digit (nat_of_ascii c / 16))
                + JsString.hex_value (hex_digit (nat_of_ascii c mod 16))) = c.
Proof.
  destruct c as [[] [] [] [] [] [] [] []]; vm_compute; reflexivity.
Qed.

Lemma unreserved_not_percent (c : ascii) :
  uri_unreserved c = true -> Ascii.eqb c "%" = false.
Proof.
  destruct (Ascii.eqb_spec c "%") as [-> | _]; [discriminate | reflexivity].
Qed.

Lemma percent_decode_step (a b : ascii) (r : string) :
  JsString.percent_decode (String "%" (String a (String b r)))
  = String (ascii_of_nat (16 * JsString.hex_value a + JsString.hex_value b))
           (JsString.percent_decode r).
Proof. reflexivity. Qed.

(** Decoding gives back what was encoded. *)
Lemma percent_decode_encode (s : string) :
  JsString.percent_decode (encodeURIComponent s) = s.
Proof.
  induction s as [|c rest IH]; [reflexivity|].
  cbn [encodeURIComponent]. destruct (uri_unreserved c) eqn:Hc.
  - cbn [JsString.percent_decode].
    rewrite (unreserved_not_percent c Hc), IH. reflexivity.
  - unfold percent_encode. cbn [append].
    rewrite percent_decode_step, IH, percent_byte. reflexivity.
Qed.

(** X1. The login URL determines the page it was built for: for one auth
    base URL, two pages with the same login URL are the same page. *)
Theorem login_url_determines_page :
  forall (authBaseUrl page1 page2 : string),
    Api.login_url authBaseUrl page1 = Api.login_url authBaseUrl page2 ->
    page1 = page2.
Proof.
  intros b p1 p2 H. unfold Api.login_url in H.
  apply append_cancel_l in H. apply append_cancel_l in H.
  rewrite <- (percent_decode_encode p1), <- (percent_decode_encode p2), H.
  reflexivity.
Qed.

Lemma login_url_determines_page_witness :
  "https://h.org/deriva/apps/groups/detail/7?tab=a&b" =
  "https://h.org/deriva/apps/groups/detail/7?tab=a&b".
Proof.
  apply (login_url_determines_page "https://h.org/authn"
           "https://h.org/deriva/apps/groups/detail/7?tab=a&b"
           "https://h.org/deriva/apps/groups/detail/7?tab=a&b").
  reflexivity.
Defined.

(** X2. The referrer that the login URL carries holds no character that
    delimits a URL or its query: no "&", "=", "#", "?", "/", ":", "+" and
    no space, whatever the page URL is. *)
Theorem referrer_has_no_delimiter :
  forall (page : string) (c : ascii),
    In c (list_ascii_of_string (encodeURIComponent page)) ->
    ~ In c ["&"; "="; "#"; "?"; "/"; ":"; "+"; " "]%char.
Proof.
  intros page c Hin Hbad.
  pose proof (encodeURIComponent_safe page) as Hsafe.
  rewrite Forall_forall in Hsafe. specialize (Hsafe c Hin).
  simpl in Hbad.
  repeat (destruct Hbad as [<- | Hbad]; [vm_compute in Hsafe; discriminate|]).
  exact Hbad.
Qed.

Lemma referrer_has_no_delimiter_witness :
  ~ In "%"%char ["&"; "="; "#"; "?"; "/"; ":"; "+"; " "]%char.
Proof.
  apply (referrer_has_no_delimiter "a&b" "%"%char).
  vm_compute. auto.
Defined.

(** X3. Signing in from a page ([handleLogin], which passes the current
    URL to [login]) sends the browser to the very URL that the response
    interceptor assigns on a 401 answered on that page; neither issues a
    call. The current URL must be non-empty: [login] replaces an empty
    referrer by the default one. *)
Theorem handleLogin_matches_unauthorized_redirect :
  forall (S : Type) (i : Instance) (h : Host) (fx : Effects) (s : S)
         (error : AxiosError) (r : AxiosResponse),
    href h <> "" ->
    response error = Some r ->
    status r = 401 ->
    snd (Login.handleLogin h (fx, s)) = snd (Api.setupInterceptors i error h (fx, s))
    /\ fst (Login.handleLogin h (fx, s)) = Normal tt
    /\ network (fst (snd (Login.handleLogin h (fx, s)))) = network fx.
Proof.
  intros S i h fx s error r Hhref Hr H401.
  assert (Hs : status_is (EAxios error) 401 = true).
  { rewrite (status_is_response _ _ _ Hr), H401. reflexivity. }
  rewrite setupInterceptors_same, (onResponseError_401 _ _ _ _ _ Hs).
  unfold Login.handleLogin, Login.login, bind, ask, assign_href, effect.
  cbn [fst snd or_default].
  destruct (String.eqb_spec (href h) "") as [E | _]; [contradiction|].
  repeat split.
Qed.

Lemma handleLogin_matches_unauthorized_redirect_witness :
  snd (Login.handleLogin (S := unit)
         (Samples.host (Samples.always (Rejected Samples.unauthorized)) true)
         (no_effects, tt))
  = snd (Api.setupInterceptors (S := unit) api Samples.unauthorized
           (Samples.host (Samples.always (Rejected Samples.unauthorized)) true)
           (no_effects, tt)).
Proof.
  apply (handleLogin_matches_unauthorized_redirect unit api
           (Samples.host (Samples.always (Rejected Samples.unauthorized)) true)
           no_effects tt Samples.unauthorized
           (mkResponse 401 (JObject [("error", JString "unauthorized")]))).
  - discriminate.
  - reflexivity.
  - reflexivity.
Defined.

(* ================================================================== *)
(** ** Computations that never throw, computations that keep a field *)
(* ================================================================== *)

Section FrameFacts.
Context {S : Type}.

Lemma never_throws_ret {A} (a : A) : Frame.never_throws (S := S) (ret a).
Proof. intros h st. do 2 eexists. reflexivity. Qed.

Lemma never_throws_bind {A B} (m : M S A) (k : A -> M S B) :
  Frame.never_throws m -> (forall a, Frame.never_throws (k a)) ->
  Frame.never_throws (bind m k).
Proof.
  intros Hm Hk h st. unfold bind.
  destruct (Hm h st) as (a & st' & ->). apply Hk.
Qed.

(** A [try] whose [catch] clause never throws never throws. *)
Lemma never_throws_try_catch {A} (body : M S A) (handler : Exn -> M S A) :
  (forall e, Frame.never_throws (handler e)) ->
  Frame.never_throws (try_catch body handler).
Proof.
  intros Hh h st. unfold try_catch.
  destruct (body h st) as [[a | e] st'].
  - do 2 eexists. reflexivity.
  - apply Hh.
Qed.

Lemma never_throws_try_finally {A} (body : M S A) (final : M S unit) :
  Frame.never_throws body -> Frame.never_throws final ->
  Frame.never_throws (try_finally body final).
Proof.
  intros Hb Hf h st. unfold try_finally.
  destruct (Hb h st) as (a & st' & ->).
  destruct (Hf h st') as ([] & st'' & ->).
  do 2 eexists. reflexivity.
Qed.

Lemma never_throws_effect (f : Effects -> Effects) :
  Frame.never_throws (S := S) (effect f).
Proof. intros h st. do 2 eexists. reflexivity. Qed.

Lemma never_throws_modify (f : S -> S) : Frame.never_throws (modify f).
Proof. intros h st. do 2 eexists. reflexivity. Qed.

Lemma never_throws_get_state : Frame.never_throws (S := S) get_state.
Proof. intros h st. do 2 eexists. reflexivity. Qed.

Lemma never_throws_ask : Frame.never_throws (S := S) ask.
Proof. intros h st. do 2 eexists. reflexivity. Qed.

Lemma never_throws_confirm (p : string) : Frame.never_throws (S := S) (confirm p).
Proof. intros h st. do 2 eexists. reflexivity. Qed.

Lemma never_throws_if {A} (b : bool) (m1 m2 : M S A) :
  Frame.never_throws m1 -> Frame.never_throws m2 ->
  Frame.never_throws (if b then m1 else m2).
Proof. destruct b; auto. Qed.

Lemma preserves_ret {A X} (f : S -> X) (a : A) : Frame.preserves f (ret a).
Proof. intros h st. reflexivity. Qed.

Lemma preserves_throw {A X} (f : S -> X) (e : Exn) :
  Frame.preserves (A := A) f (throw e).
Proof. intros h st. reflexivity. Qed.

Lemma preserves_bind {A B X} (f : S -> X) (m : M S A) (k : A -> M S B) :
  Frame.preserves f m -> (forall a, Frame.preserves f (k a)) ->
  Frame.preserves f (bind m k).
Proof.
  intros Hm Hk h st. unfold bind. specialize (Hm h st).
  destruct (m h st) as [[a | e] st']; simpl in *.
  - rewrite Hk. exact Hm.
  - exact Hm.
Qed.

Lemma preserves_try_catch {A X} (f : S -> X) (body : M S A) (handler : Exn -> M S A) :
  Frame.preserves f body -> (forall e, Frame.preserves f (handler e)) ->
  Frame.preserves f (try_catch body handler).
Proof.
  intros Hb Hh h st. unfold try_catch. specialize (Hb h st).
  destruct (body h st) as [[a | e] st']; simpl in *.
  - exact Hb.
  - rewrite Hh. exact Hb.
Qed.

Lemma preserves_try_finally {A X} (f : S -> X) (body : M S A) (final : M S unit) :
  Frame.preserves f body -> Frame.preserves f final ->
  Frame.preserves f (try_finally body final).
Proof.
  intros Hb Hf h st. unfold try_finally. specialize (Hb h st).
  destruct (body h st) as [r st']. specialize (Hf h st').
  destruct (final h st') as [[[] | e] st'']; simpl in *; congruence.
Qed.

Lemma preserves_effect {X} (f : S -> X) (g : Effects -> Effects) :
  Frame.preserves f (effect g).
Proof. intros h st. reflexivity. Qed.

Lemma preserves_modify {X} (f : S -> X) (g : S -> S) :
  (forall s, f (g s) = f s) -> Frame.preserves f (modify g).
Proof. intros H h st. simpl. apply H. Qed.

Lemma preserves_prop {X} (f : S -> X) (v : JsValue) (k : string) :
  Frame.preserves f (prop v k).
Proof. intros h st. unfold prop. destruct (nullish v); reflexivity. Qed.

Lemma preserves_if {A X} (f : S -> X) (b : bool) (m1 m2 : M S A) :
  Frame.preserves f m1 -> Frame.preserves f m2 ->
  Frame.preserves f (if b then m1 else m2).
Proof. destruct b; auto. Qed.

Lemma preserves_axios_request {X} (f : S -> X) (i : Instance) (req : Request) :
  Frame.preserves f (Api.axios_request i req).
Proof.
  intros h [fx s]. rewrite axios_request_eq.
  destruct (transport h (network fx) req) as [resp | error]; [reflexivity|].
  unfold Api.onResponseError.
  destruct (status_is (EAxios error) 401); reflexivity.
Qed.

End FrameFacts.

Create HintDb frame.
#[export] Hint Resolve never_throws_ret never_throws_bind never_throws_try_catch
  never_throws_try_finally never_throws_effect never_throws_modify
  never_throws_get_state never_throws_ask never_throws_confirm never_throws_if
  preserves_ret preserves_throw preserves_bind preserves_try_catch
  preserves_try_finally preserves_effect preserves_modify preserves_prop
  preserves_if preserves_axios_request : frame.

Ltac never_throws_steps := repeat (intros; first
  [ solve [auto with frame]
  | apply never_throws_try_finally | apply never_throws_try_catch
  | apply never_throws_bind | apply never_throws_if ]).

Ltac preserves_steps := repeat (intros; first
  [ solve [auto with frame]
  | apply preserves_modify; intros; reflexivity
  | apply preserves_try_finally | apply preserves_try_catch
  | apply preserves_bind | apply preserves_if ]).

(* ================================================================== *)
(** ** More on the session manager and the interceptor *)
(* ================================================================== *)


Lemma or_truthy_r (a b : JsValue) : truthy b = true -> truthy (or a b) = true.
Proof. intros Hb. unfold or. destruct (truthy a) eqn:Ha; assumption. Qed.

(** X4. Whatever the session call answers and whatever the state was,
    [fetchUser] ends normally with loading off, after exactly one call (the
    session call); it shows no toast, changes no route and asks nothing. *)
Theorem fetchUser_always_settles :
  forall (h : Host) (fx : Effects) (s : AuthContext.AuthState),
    exists fx' s',
      AuthContext.fetchUser h (fx, s) = (Normal tt, (fx', s'))
      /\ AuthContext.loading s' = false
      /\ network fx' = GetSession :: network fx
      /\ toasts fx' = toasts fx
      /\ navigations fx' = navigations fx
      /\ confirms fx' = confirms fx.
Proof.
  intros h fx s. rewrite fetchUser_eq. unfold Api.getCurrentUser.
  destruct (transport h (network fx) GetSession) as [resp | error] eqn:Ht.
  - rewrite (axios_request_resolved auth GetSession h fx _ resp Ht).
    destruct (nullish (data resp));
      do 2 eexists; (split; [reflexivity|]); simpl; auto.
  - destruct (axios_request_rejected auth GetSession h fx
                (AuthContext.mkAuthState (AuthContext.user s) true None) error Ht)
      as (error' & fx' & Hrun & _ & Hnet & _ & Htoast & Hnav & Hconf).
    rewrite Hrun.
    destruct (status_is (EAxios error') 404);
      do 2 eexists; (split; [reflexivity|]); simpl; auto.
Qed.



(** X6. For every error whose status is not 401, the message that the
    interceptor attaches is truthy: a caller's
    [error.userMessage || 'fallback'] never falls back for such an
    error. *)
Theorem attached_message_is_truthy :
  forall (S : Type) (i : Instance) (h : Host) (fx : Effects) (s : S)
         (error : AxiosError),
    status_is (EAxios error) 401 = false ->
    exists m : JsValue,
      Api.setupInterceptors i error h (fx, s)
      = (Throw (EAxios (mkError (response error) (request error) m)), (fx, s))
      /\ truthy m = true
      /\ forall fallback : string, or m (JString fallback) = m.
Proof.
  intros S i h fx s error H401.
  rewrite setupInterceptors_same. unfold Api.onResponseError. rewrite H401.
  eexists. split; [reflexivity|].
  match goal with |- truthy ?m = true /\ _ =>
    assert (Hm : truthy m = true) end.
  { unfold Api.response_data, Api.server_error_message.
    destruct (response error) as [r|]; simpl.
    - destruct (truthy (data r)).
      + repeat apply or_truthy_r. reflexivity.
      + destruct (request error); reflexivity.
    - destruct (request error); reflexivity. }
  split; [exact Hm|].
  intros fallback. unfold or at 1. rewrite Hm. reflexivity.
Qed.

Lemma attached_message_is_truthy_witness :
  exists m : JsValue,
    Api.setupInterceptors (S := unit) api Samples.bad_gateway
      (Samples.host (Samples.always (Rejected Samples.bad_gateway)) true) (no_effects, tt)
    = (Throw (EAxios (mkError (response Samples.bad_gateway)
                              (request Samples.bad_gateway) m)), (no_effects, tt))
    /\ truthy m = true
    /\ forall fallback : string, or m (JString fallback) = m.
Proof.
  apply (attached_message_is_truthy unit api
           (Samples.host (Samples.always (Rejected Samples.bad_gateway)) true)
           no_effects tt Samples.bad_gateway).
  reflexivity.
Defined.

(* ================================================================== *)
(** ** More on loading the group page *)
(* ================================================================== *)

(** X7. Whatever the route parameter, the answers of the service and the
    state of the page, [loadGroupData] ends normally and shows no
    confirmation prompt; when the group id is present and not empty it
    ends with loading off. *)
Theorem loadGroupData_always_settles :
  forall (groupId : option string) (h : Host) (fx : Effects) (s : GroupDetail.State),
    exists fx' s',
      GroupDetail.loadGroupData groupId h (fx, s) = (Normal tt, (fx', s'))
      /\ confirms fx' = confirms fx
      /\ (forall gid, groupId = Some gid -> (gid =? "")%string = false ->
                      GroupDetail.loading s' = false).
Proof.
  intros groupId h fx s.
  pose proof (quiet_loadGroupData groupId h (fx, s)) as Hq.
  destruct groupId as [gid|].
  - destruct (gid =? "")%string eqn:Hgid.
    + unfold GroupDetail.loadGroupData. rewrite Hgid.
      do 2 eexists. split; [reflexivity|]. split; [reflexivity|].
      intros g Hg Hne. injection Hg as <-. congruence.
    + destruct (GroupDetail.loadGroupData_try gid h (fx, s))
        as [[[] | err] [fx1 s1]] eqn:Htry.
      * rewrite (loadGroupData_success _ _ _ _ _ _ Hgid Htry) in *.
        do 2 eexists. split; [reflexivity|]. split; [exact Hq|]. reflexivity.
      * destruct (loadGroupData_failure _ _ _ _ _ _ _ Hgid Htry) as (fx' & Hrun & _).
        rewrite Hrun in *.
        do 2 eexists. split; [reflexivity|]. split; [exact Hq|]. reflexivity.
  - do 2 eexists. split; [reflexivity|]. split; [reflexivity|]. discriminate.
Qed.

(** X8. For a group that the user manages, when the four fetches succeed
    with readable bodies, the load issues them in the order group, members,
    invitations, join requests (pending only) and stores the four payloads;
    nothing is logged or shown, and the other cells of the page keep their
    values. *)
Theorem manager_load_stores_four_payloads :
  forall (gid : string) (h : Host) (fx : Effects) (s : GroupDetail.State)
         (r1 r2 r3 r4 : AxiosResponse),
    (gid =? "")%string = false ->
    transport h (network fx) (GetGroup gid) = Resolved r1 ->
    transport h (GetGroup gid :: network fx) (GetGroupMembers gid) = Resolved r2 ->
    nullish (data r2) = false ->
    GroupDetail.canManage (get (data r1) "membership") = true ->
    transport h (GetGroupMembers gid :: GetGroup gid :: network fx)
              (GetGroupInvitations gid) = Resolved r3 ->
    nullish (data r3) = false ->
    transport h (GetGroupInvitations gid :: GetGroupMembers gid :: GetGroup gid
                   :: network fx)
              (GetGroupJoinRequests gid true) = Resolved r4 ->
    nullish (data r4) = false ->
    GroupDetail.loadGroupData (Some gid) h (fx, s)
    = (Normal tt,
       (mkEffects (assigned_href fx)
                  (GetGroupJoinRequests gid true :: GetGroupInvitations gid
                     :: GetGroupMembers gid :: GetGroup gid :: network fx)
                  (console fx) (toasts fx) (navigations fx) (confirms fx),
        GroupDetail.mkState (data r1) (get (data r2) "members")
          (get (data r3) "invitations") (get (data r4) "join_requests") false
          (GroupDetail.activeTab s) (GroupDetail.showInviteModal s)
          (GroupDetail.showEditModal s))).
Proof.
  intros gid h fx s r1 r2 r3 r4 Hgid H1 H2 Hn2 Hcan H3 Hn3 H4 Hn4.
  rewrite (loadGroupData_success gid h fx s
             (mkEffects (assigned_href fx)
                (GetGroupJoinRequests gid true :: GetGroupInvitations gid
                   :: GetGroupMembers gid :: GetGroup gid :: network fx)
                (console fx) (toasts fx) (navigations fx) (confirms fx))
             (GroupDetail.mkState (data r1) (get (data r2) "members")
                (get (data r3) "invitations") (get (data r4) "join_requests") true
                (GroupDetail.activeTab s) (GroupDetail.showInviteModal s)
                (GroupDetail.showEditModal s)) Hgid); [reflexivity|].
  unfold GroupDetail.loadGroupData_try, Api.getGroup, Api.getGroupMembers,
    Api.getGroupInvitations, Api.getGroupJoinRequests. setters.
  rewrite bind_modify, (bind_request_resolved _ _ _ _ _ _ _ H1), bind_modify.
  rewrite (bind_request_resolved api _ _ h (logged (GetGroup gid) fx) _ _ H2).
  rewrite bind_prop, Hn2, bind_modify, bind_prop.
  rewrite (canManage_not_nullish _ _ Hcan), Hcan.
  rewrite (bind_request_resolved api _ _ h
             (logged (GetGroupMembers gid) (logged (GetGroup gid) fx)) _ _ H3).
  rewrite bind_prop, Hn3, bind_modify.
  rewrite (bind_request_resolved api _ _ h
             (logged (GetGroupInvitations gid)
                (logged (GetGroupMembers gid) (logged (GetGroup gid) fx))) _ _ H4).
  rewrite bind_prop, Hn4. reflexivity.
Qed.

Lemma manager_load_stores_four_payloads_witness :
  GroupDetail.loadGroupData (Some "7")
    (Samples.host (Samples.groups_service "manager" Samples.never) true)
    (no_effects, GroupDetail.initial)
  = (Normal tt,
     (mkEffects [] [GetGroupJoinRequests "7" true; GetGroupInvitations "7";
                    GetGroupMembers "7"; GetGroup "7"] [] [] [] [],
      GroupDetail.mkState (Samples.group_with_role "manager") (JArray []) (JArray [])
        (JArray []) false GroupDetail.TabMembers false false)).
Proof.
  apply (manager_load_stores_four_payloads "7"
           (Samples.host (Samples.groups_service "manager" Samples.never) true)
           no_effects GroupDetail.initial
           (mkResponse 200 (Samples.group_with_role "manager"))
           (mkResponse 200 (JObject [("members", JArray [])]))
           (mkResponse 200 (JObject [("invitations", JArray [])]))
           (mkResponse 200 (JObject [("join_requests", JArray [])])));
    reflexivity.
Defined.

(** The [catch] clause of [loadGroupData], in full. *)
Lemma loadGroupData_catch_eq (err : Exn) (h : Host) (fx : Effects)
    (s : GroupDetail.State) :
  GroupDetail.loadGroupData_catch err h (fx, s)
  = (Normal tt,
     (mkEffects (assigned_href fx) (network fx)
        ((GroupDetail.load_failed_label, err) :: console fx)
        (ToastError
           (if status_is err 403
            then JString "You do not have permission to view this group"
            else if status_is err 404 then JString "Group not found"
            else or (exn_userMessage err) (JString "Failed to load group data"))
           :: toasts fx)
        (if status_is err 403 || status_is err 404
         then "/detail" :: navigations fx else navigations fx)
        (confirms fx), s)).
Proof.
  unfold GroupDetail.loadGroupData_catch, bind, console_error, toast, navigate, effect.
  cbn [fst snd].
  destruct (status_is err 403); [|destruct (status_is err 404)]; reflexivity.
Qed.

(** The [try] block when a fetch fails: it throws the intercepted error
    right after the failed call. *)
Lemma loadGroupData_try_fails (f : GroupDetail.Fetch) (gid : string) (h : Host)
    (fx : Effects) (s : GroupDetail.State) (error : AxiosError) :
  GroupDetail.fails_at f gid h (network fx) error ->
  exists err fx1 s1,
    GroupDetail.loadGroupData_try gid h (fx, s) = (Throw (EAxios err), (fx1, s1)) /\
    response err = response error /\
    network fx1 = (GroupDetail.issued_until f gid ++ network fx)%list /\
    console fx1 = console fx /\ toasts fx1 = toasts fx /\
    navigations fx1 = navigations fx.
Proof.
  intros Hfail.
  unfold GroupDetail.loadGroupData_try, Api.getGroup, Api.getGroupMembers,
    Api.getGroupInvitations. setters. rewrite bind_modify.
  destruct f; simpl in Hfail.
  - destruct (axios_request_rejected api _ h fx
                (GroupDetail.mkState (GroupDetail.group s) (GroupDetail.members s)
                   (GroupDetail.invitations s) (GroupDetail.joinRequests s) true
                   (GroupDetail.activeTab s) (GroupDetail.showInviteModal s)
                   (GroupDetail.showEditModal s)) error Hfail)
      as (e' & fx1 & Hrun & Hresp & Hnet & Hcons & Htoast & Hnav & _).
    rewrite (bind_throw_eq _ _ _ _ _ _ Hrun).
    do 3 eexists. split; [reflexivity|]. auto 6.
  - destruct Hfail as [[r1 Hg] Hmem].
    rewrite (bind_request_resolved _ _ _ _ _ _ _ Hg), bind_modify. projections.
    destruct (axios_request_rejected api _ h (logged (GetGroup gid) fx)
                (GroupDetail.mkState (data r1) (GroupDetail.members s)
                   (GroupDetail.invitations s) (GroupDetail.joinRequests s) true
                   (GroupDetail.activeTab s) (GroupDetail.showInviteModal s)
                   (GroupDetail.showEditModal s)) error Hmem)
      as (e' & fx1 & Hrun & Hresp & Hnet & Hcons & Htoast & Hnav & _).
    rewrite (bind_throw_eq _ _ _ _ _ _ Hrun).
    do 3 eexists. split; [reflexivity|]. auto 6.
  - destruct Hfail as (r1 & r2 & Hg & Hmem & Hn2 & Hcan & Hinv).
    rewrite (bind_request_resolved _ _ _ _ _ _ _ Hg), bind_modify. projections.
    rewrite (bind_request_resolved api _ _ h (logged (GetGroup gid) fx) _ _ Hmem).
    rewrite bind_prop, Hn2, bind_modify, bind_prop.
    rewrite (canManage_not_nullish _ _ Hcan), Hcan. projections.
    destruct (axios_request_rejected api _ h
                (logged (GetGroupMembers gid) (logged (GetGroup gid) fx))
                (GroupDetail.mkState (data r1) (get (data r2) "members")
                   (GroupDetail.invitations s) (GroupDetail.joinRequests s) true
                   (GroupDetail.activeTab s) (GroupDetail.showInviteModal s)
                   (GroupDetail.showEditModal s)) error Hinv)
      as (e' & fx1 & Hrun & Hresp & Hnet & Hcons & Htoast & Hnav & _).
    rewrite (bind_throw_eq _ _ _ _ _ _ Hrun).
    do 3 eexists. split; [reflexivity|]. auto 6.
Qed.

Lemma status_is_same_response (e1 e2 : AxiosError) (n : Z) :
  response e1 = response e2 -> status_is (EAxios e1) n = status_is (EAxios e2) n.
Proof. intros H. unfold status_is. simpl. rewrite H. reflexivity. Qed.

Section KeepsFacts.
Context {S X : Type} (f : Effects -> X).
Hypothesis f_reads :
  forall a n c t nv cf a' n',
    f (mkEffects a n c t nv cf) = f (mkEffects a' n' c t nv cf).

Lemma keeps_ret {A} (a : A) : Frame.keeps (S := S) f (ret a).
Proof. intros h st. reflexivity. Qed.

Lemma keeps_bind {A B} (m : M S A) (k : A -> M S B) :
  Frame.keeps f m -> (forall a, Frame.keeps f (k a)) -> Frame.keeps f (bind m k).
Proof.
  intros Hm Hk h st. unfold bind. specialize (Hm h st).
  destruct (m h st) as [[a | e] st']; simpl in *.
  - rewrite Hk. exact Hm.
  - exact Hm.
Qed.

Lemma keeps_if {A} (b : bool) (m1 m2 : M S A) :
  Frame.keeps f m1 -> Frame.keeps f m2 -> Frame.keeps f (if b then m1 else m2).
Proof. destruct b; auto. Qed.

Lemma keeps_modify (g : S -> S) : Frame.keeps f (modify g).
Proof. intros h st. reflexivity. Qed.

Lemma keeps_prop (v : JsValue) (k : string) : Frame.keeps (S := S) f (prop v k).
Proof. intros h st. unfold prop. destruct (nullish v); reflexivity. Qed.

(** A call writes the network log and, on a 401, the location. *)
Lemma keeps_axios_request (i : Instance) (req : Request) :
  Frame.keeps (S := S) f (Api.axios_request i req).
Proof.
  intros h [fx s]. rewrite axios_request_eq. destruct fx as [a n c t nv cf].
  destruct (transport h (network (mkEffects a n c t nv cf)) req) as [resp | error].
  - apply f_reads.
  - unfold Api.onResponseError.
    destruct (status_is (EAxios error) 401); apply f_reads.
Qed.

End KeepsFacts.

(** The [try] block of [loadGroupData] writes nothing but the network
    log, the location (on a 401) and the state of the page. *)
Lemma loadGroupData_try_keeps {X : Type} (f : Effects -> X) (gid : string) :
  (forall a n c t nv cf a' n',
      f (mkEffects a n c t nv cf) = f (mkEffects a' n' c t nv cf)) ->
  Frame.keeps f (GroupDetail.loadGroupData_try gid).
Proof.
  intros Hf.
  unfold GroupDetail.loadGroupData_try, Api.getGroup, Api.getGroupMembers,
    Api.getGroupInvitations, Api.getGroupJoinRequests. setters.
  repeat (intros; first
    [ apply keeps_axios_request; exact Hf
    | apply keeps_modify | apply keeps_prop | apply keeps_ret
    | apply keeps_bind | apply keeps_if ]).
Qed.

(** The [try] block when one of the four fetches fails. *)
Lemma loadGroupData_try_fails_at (f : GroupPage.LoadFetch) (gid : string) (h : Host)
    (fx : Effects) (s : GroupDetail.State) (error : AxiosError) :
  GroupPage.load_fails_at f gid h (network fx) error ->
  exists err fx1 s1,
    GroupDetail.loadGroupData_try gid h (fx, s) = (Throw (EAxios err), (fx1, s1)) /\
    response err = response error.
Proof.
  intros Hfail.
  destruct f; cbn [GroupPage.load_fails_at] in Hfail;
    try (destruct (loadGroupData_try_fails _ gid h fx s error Hfail)
           as (err & fx1 & s1 & Htry & Hresp & _);
         exists err, fx1, s1; split; assumption).
  destruct Hfail as (r1 & r2 & r3 & Hg & Hmem & Hn2 & Hcan & Hinv & Hn3 & Hreq).
  unfold GroupDetail.loadGroupData_try, Api.getGroup, Api.getGroupMembers,
    Api.getGroupInvitations, Api.getGroupJoinRequests. setters.
  rewrite bind_modify, (bind_request_resolved _ _ _ _ _ _ _ Hg), bind_modify.
  rewrite (bind_request_resolved api _ _ h (logged (GetGroup gid) fx) _ _ Hmem).
  rewrite bind_prop, Hn2, bind_modify, bind_prop.
  rewrite (canManage_not_nullish _ _ Hcan), Hcan.
  rewrite (bind_request_resolved api _ _ h
             (logged (GetGroupMembers gid) (logged (GetGroup gid) fx)) _ _ Hinv).
  rewrite bind_prop, Hn3, bind_modify. projections.
  destruct (axios_request_rejected api _ h
              (logged (GetGroupInvitations gid)
                 (logged (GetGroupMembers gid) (logged (GetGroup gid) fx)))
              (GroupDetail.mkState (data r1) (get (data r2) "members")
                 (get (data r3) "invitations") (GroupDetail.joinRequests s) true
                 (GroupDetail.activeTab s) (GroupDetail.showInviteModal s)
                 (GroupDetail.showEditModal s)) error Hreq)
    as (e' & fx1 & Hrun & Hresp & _).
  rewrite (bind_throw_eq _ _ _ _ _ _ Hrun).
  do 3 eexists. split; [reflexivity | exact Hresp].
Qed.

(** The [try] block when a body cannot be read. *)
Lemma loadGroupData_try_unreadable (f : GroupPage.LoadFetch) (gid : string) (h : Host)
    (fx : Effects) (s : GroupDetail.State) :
  GroupPage.load_body_unreadable f gid h (network fx) ->
  exists fx1 s1,
    GroupDetail.loadGroupData_try gid h (fx, s) = (Throw ETypeError, (fx1, s1)).
Proof.
  intros (r1 & r2 & Hg & Hmem & Hf).
  unfold GroupDetail.loadGroupData_try, Api.getGroup, Api.getGroupMembers,
    Api.getGroupInvitations, Api.getGroupJoinRequests. setters.
  rewrite bind_modify, (bind_request_resolved _ _ _ _ _ _ _ Hg), bind_modify.
  rewrite (bind_request_resolved api _ _ h (logged (GetGroup gid) fx) _ _ Hmem).
  rewrite bind_prop.
  destruct f.
  - destruct Hf as (Hn2 & Hn1).
    rewrite Hn2, bind_modify, bind_prop, Hn1. do 2 eexists. reflexivity.
  - rewrite Hf. do 2 eexists. reflexivity.
  - destruct Hf as (Hn2 & Hcan & r3 & Hinv & Hn3).
    rewrite Hn2, bind_modify, bind_prop.
    rewrite (canManage_not_nullish _ _ Hcan), Hcan.
    rewrite (bind_request_resolved api _ _ h
               (logged (GetGroupMembers gid) (logged (GetGroup gid) fx)) _ _ Hinv).
    rewrite bind_prop, Hn3. do 2 eexists. reflexivity.
  - destruct Hf as (Hn2 & Hcan & r3 & r4 & Hinv & Hn3 & Hreq & Hn4).
    rewrite Hn2, bind_modify, bind_prop.
    rewrite (canManage_not_nullish _ _ Hcan), Hcan.
    rewrite (bind_request_resolved api _ _ h
               (logged (GetGroupMembers gid) (logged (GetGroup gid) fx)) _ _ Hinv).
    rewrite bind_prop, Hn3, bind_modify.
    rewrite (bind_request_resolved api _ _ h
               (logged (GetGroupInvitations gid)
                  (logged (GetGroupMembers gid) (logged (GetGroup gid) fx))) _ _ Hreq).
    rewrite bind_prop, Hn4. do 2 eexists. reflexivity.
Qed.

(** X9. Every load of the page with a group id either succeeds, and then
    logs nothing, shows no toast and keeps its route; or fails, and then
    logs the error that its [try] block threw and shows one error toast:
    "You do not have permission to view this group" with a change of route
    to /detail when the error has status 403, "Group not found" with the
    same change of route when it has status 404, and otherwise the error's
    [userMessage] or else "Failed to load group data", without a change of
    route. The failures are those of the four fetches (group, members,
    invitations, join requests), where the error logged carries the
    response of the failed fetch, and the TypeError of a response whose
    body cannot be read, which has no status. *)
Theorem failed_load_leaves_page_only_on_403_404 :
  forall (gid : string) (h : Host) (fx : Effects) (s : GroupDetail.State),
    (gid =? "")%string = false ->
    exists fx' s',
      GroupDetail.loadGroupData (Some gid) h (fx, s) = (Normal tt, (fx', s'))
      /\ ((console fx' = console fx /\ toasts fx' = toasts fx
           /\ navigations fx' = navigations fx)
          \/ (exists err,
                console fx' = ("Failed to load group data:", err) :: console fx
                /\ toasts fx'
                   = ToastError
                       (if status_is err 403
                        then JString "You do not have permission to view this group"
                        else if status_is err 404 then JString "Group not found"
                        else or (exn_userMessage err)
                                (JString "Failed to load group data"))
                       :: toasts fx
                /\ navigations fx'
                   = (if status_is err 403 || status_is err 404
                      then "/detail" :: navigations fx else navigations fx)))
      /\ (forall (f : GroupPage.LoadFetch) (error : AxiosError),
             GroupPage.load_fails_at f gid h (network fx) error ->
             exists err,
               console fx' = ("Failed to load group data:", EAxios err) :: console fx
               /\ response err = response error)
      /\ (forall (f : GroupPage.LoadFetch),
             GroupPage.load_body_unreadable f gid h (network fx) ->
             console fx' = ("Failed to load group data:", ETypeError) :: console fx
             /\ toasts fx'
                = ToastError (JString "Failed to load group data") :: toasts fx
             /\ navigations fx' = navigations fx).
Proof.
  intros gid h fx s Hgid.
  pose proof (loadGroupData_try_keeps console gid (fun _ _ _ _ _ _ _ _ => eq_refl)
                h (fx, s)) as Hcons.
  pose proof (loadGroupData_try_keeps toasts gid (fun _ _ _ _ _ _ _ _ => eq_refl)
                h (fx, s)) as Htoast.
  pose proof (loadGroupData_try_keeps navigations gid (fun _ _ _ _ _ _ _ _ => eq_refl)
                h (fx, s)) as Hnav.
  destruct (GroupDetail.loadGroupData_try gid h (fx, s))
    as [[[] | err] [fx1 s1]] eqn:Htry; cbn [fst snd] in Hcons, Htoast, Hnav.
  - (* the load succeeds *)
    rewrite (loadGroupData_success _ _ _ _ _ _ Hgid Htry).
    do 2 eexists. split; [reflexivity|].
    split; [left; auto|]. split.
    + intros f error Hfail.
      destruct (loadGroupData_try_fails_at f gid h fx s error Hfail)
        as (e & fx2 & s2 & Htry' & _).
      rewrite Htry' in Htry. discriminate Htry.
    + intros f Hf.
      destruct (loadGroupData_try_unreadable f gid h fx s Hf) as (fx2 & s2 & Htry').
      rewrite Htry' in Htry. discriminate Htry.
  - (* the load fails *)
    unfold GroupDetail.loadGroupData. rewrite Hgid.
    unfold try_finally, try_catch. rewrite Htry, loadGroupData_catch_eq.
    do 2 eexists. split; [reflexivity|].
    cbn [console toasts navigations]. rewrite Hcons, Htoast, Hnav.
    split; [right; exists err; auto|]. split.
    + intros f error Hfail.
      destruct (loadGroupData_try_fails_at f gid h fx s error Hfail)
        as (e & fx2 & s2 & Htry' & Hresp).
      rewrite Htry' in Htry. injection Htry as <- _ _.
      exists e. split; [reflexivity | exact Hresp].
    + intros f Hf.
      destruct (loadGroupData_try_unreadable f gid h fx s Hf) as (fx2 & s2 & Htry').
      rewrite Htry' in Htry. injection Htry as <- _ _.
      repeat split.
Qed.

Lemma failed_load_leaves_page_only_on_403_404_witness :
  exists fx' s',
    GroupDetail.loadGroupData (Some "7")
      (Samples.host
         (fun _ req =>
            match req with
            | GetGroupJoinRequests _ _ => Rejected (Samples.error_with 403 JNull)
            | _ => Samples.groups_service "manager" Samples.never [] req
            end) true)
      (no_effects, GroupDetail.initial)
    = (Normal tt, (fx', s'))
    /\ navigations fx' = ["/detail"]
    /\ toasts fx'
       = [ToastError (JString "You do not have permission to view this group")].
Proof.
  destruct (failed_load_leaves_page_only_on_403_404 "7"
              (Samples.host
                 (fun _ req =>
                    match req with
                    | GetGroupJoinRequests _ _ => Rejected (Samples.error_with 403 JNull)
                    | _ => Samples.groups_service "manager" Samples.never [] req
                    end) true)
              no_effects GroupDetail.initial eq_refl)
    as (fx' & s' & Hrun & Hcases & Hlink & _).
  exists fx', s'. split; [exact Hrun|].
  destruct (Hlink GroupPage.LoadJoinRequests (Samples.error_with 403 JNull))
    as (e & Hlog & Hresp).
  { exists (mkResponse 200 (Samples.group_with_role "manager")),
           (mkResponse 200 (JObject [("members", JArray [])])),
           (mkResponse 200 (JObject [("invitations", JArray [])])).
    repeat split; reflexivity. }
  destruct Hcases as [(Hc & _) | (err & Hc & Ht & Hn)].
  - rewrite Hlog in Hc. discriminate Hc.
  - rewrite Hlog in Hc. injection Hc as <-.
    assert (H403 : status_is (EAxios e) 403 = true).
    { unfold status_is. simpl. rewrite Hresp. reflexivity. }
    rewrite H403 in Ht, Hn. split; [exact Hn | exact Ht].
Defined.

(** X10. When the group fetch succeeds and the members fetch fails, the
    page is left with the new group beside the members, invitations and
    join requests it had before the load. *)
Theorem failed_members_fetch_keeps_new_group :
  forall (gid : string) (h : Host) (fx : Effects) (s : GroupDetail.State)
         (r1 : AxiosResponse) (error : AxiosError),
    (gid =? "")%string = false ->
    transport h (network fx) (GetGroup gid) = Resolved r1 ->
    transport h (GetGroup gid :: network fx) (GetGroupMembers gid) = Rejected error ->
    exists fx',
      GroupDetail.loadGroupData (Some gid) h (fx, s)
      = (Normal tt,
         (fx', GroupDetail.mkState (data r1) (GroupDetail.members s)
                 (GroupDetail.invitations s) (GroupDetail.joinRequests s) false
                 (GroupDetail.activeTab s) (GroupDetail.showInviteModal s)
                 (GroupDetail.showEditModal s))).
Proof.
  intros gid h fx s r1 error Hgid Hg Hmem.
  destruct (axios_request_rejected api _ h (logged (GetGroup gid) fx)
              (GroupDetail.mkState (data r1) (GroupDetail.members s)
                 (GroupDetail.invitations s) (GroupDetail.joinRequests s) true
                 (GroupDetail.activeTab s) (GroupDetail.showInviteModal s)
                 (GroupDetail.showEditModal s)) error Hmem)
    as (e' & fx1 & Hrun & _).
  assert (Htry : GroupDetail.loadGroupData_try gid h (fx, s)
                 = (Throw (EAxios e'),
                    (fx1, GroupDetail.mkState (data r1) (GroupDetail.members s)
                            (GroupDetail.invitations s) (GroupDetail.joinRequests s) true
                            (GroupDetail.activeTab s) (GroupDetail.showInviteModal s)
                            (GroupDetail.showEditModal s)))).
  { unfold GroupDetail.loadGroupData_try, Api.getGroup, Api.getGroupMembers. setters.
    rewrite bind_modify, (bind_request_resolved _ _ _ _ _ _ _ Hg), bind_modify.
    projections. rewrite (bind_throw_eq _ _ _ _ _ _ Hrun). reflexivity. }
  destruct (loadGroupData_failure _ _ _ _ _ _ _ Hgid Htry) as (fx' & Hload & _).
  exists fx'. exact Hload.
Qed.

Lemma failed_members_fetch_keeps_new_group_witness :
  exists fx',
    GroupDetail.loadGroupData (Some "7")
      (Samples.host
         (Samples.groups_service "member"
            (fun req => match req with GetGroupMembers _ => true | _ => false end))
         true)
      (no_effects, GroupDetail.initial)
    = (Normal tt,
       (fx', GroupDetail.mkState (Samples.group_with_role "member") (JArray [])
               (JArray []) (JArray []) false GroupDetail.TabMembers false false)).
Proof.
  apply (failed_members_fetch_keeps_new_group "7"
           (Samples.host
              (Samples.groups_service "member"
                 (fun req => match req with GetGroupMembers _ => true | _ => false end))
              true)
           no_effects GroupDetail.initial
           (mkResponse 200 (Samples.group_with_role "member")) Samples.bad_gateway);
    reflexivity.
Defined.

(* ================================================================== *)
(** ** What the group page shows *)
(* ================================================================== *)

(** The permission that the page computes when it renders is the test
    that [loadGroupData] applies to the fetched membership. *)
Lemma canManageGroup_eq (s : GroupDetail.State) :
  GroupPage.canManageGroup s
  = GroupDetail.canManage (get (GroupDetail.group s) "membership").
Proof.
  unfold GroupPage.canManageGroup, GroupPage.membership_role, GroupDetail.canManage.
  destruct (GroupDetail.group s) as [| | b | n | str | xs | fields]; try reflexivity.
  cbn [nullish get].
  destruct (lookup fields "membership") as [| | b | n | str | xs | fs];
    cbn [nullish truthy get is_string andb orb]; try reflexivity.
  - destruct b; reflexivity.
  - destruct (negb (n =? 0)); reflexivity.
  - destruct (negb (str =? "")%string); reflexivity.
Qed.

Lemma loadGroupData_try_stores_group gid h fx s r1 :
  transport h (network fx) (GetGroup gid) = Resolved r1 ->
  GroupDetail.group (snd (snd (GroupDetail.loadGroupData_try gid h (fx, s)))) = data r1.
Proof.
  intros Hg.
  unfold GroupDetail.loadGroupData_try, Api.getGroup, Api.getGroupMembers,
    Api.getGroupInvitations, Api.getGroupJoinRequests. setters.
  rewrite bind_modify, (bind_request_resolved _ _ _ _ _ _ _ Hg), bind_modify.
  match goal with
  | |- GroupDetail.group (snd (snd (?m h ?st))) = _ =>
      assert (P : Frame.preserves GroupDetail.group m) by preserves_steps;
      rewrite (P h st)
  end.
  reflexivity.
Qed.

(** X11. After a load whose group fetch succeeded, however the rest of
    the load went, the page holds the fetched group, and the permission
    that decides which tabs it shows is the test that decided the
    management fetches: the invitations and join-requests tabs are shown
    exactly when the load was allowed to fetch them. When they are not
    shown, the load issued the group and members calls and no other. *)
Theorem tabs_follow_the_fetch_gate :
  forall (gid : string) (h : Host) (fx : Effects) (s : GroupDetail.State)
         (r1 : AxiosResponse),
    (gid =? "")%string = false ->
    transport h (network fx) (GetGroup gid) = Resolved r1 ->
    exists fx' s',
      GroupDetail.loadGroupData (Some gid) h (fx, s) = (Normal tt, (fx', s'))
      /\ GroupDetail.group s' = data r1
      /\ GroupPage.canManageGroup s'
         = GroupDetail.canManage (get (data r1) "membership")
      /\ (GroupPage.tabs s' = [GroupDetail.TabMembers] ->
          network fx' = GetGroupMembers gid :: GetGroup gid :: network fx).
Proof.
  intros gid h fx s r1 Hgid Hg.
  pose proof (loadGroupData_try_stores_group gid h fx s r1 Hg) as Hgroup.
  assert (Hload : exists fx' s',
             GroupDetail.loadGroupData (Some gid) h (fx, s) = (Normal tt, (fx', s')) /\
             GroupDetail.group s' = data r1 /\
             network fx'
             = network (fst (snd (GroupDetail.loadGroupData_try gid h (fx, s))))).
  { destruct (GroupDetail.loadGroupData_try gid h (fx, s))
      as [[[] | err] [fx1 s1]] eqn:Htry; cbn [fst snd] in *.
    - rewrite (loadGroupData_success _ _ _ _ _ _ Hgid Htry).
      do 2 eexists. split; [reflexivity|]. split; [exact Hgroup | reflexivity].
    - destruct (loadGroupData_failure _ _ _ _ _ _ _ Hgid Htry)
        as (fx' & Hrun & Hnet & _).
      rewrite Hrun. do 2 eexists. split; [reflexivity|].
      split; [exact Hgroup | exact Hnet]. }
  destruct Hload as (fx' & s' & Hrun & Hg' & Hnet).
  exists fx', s'. split; [exact Hrun|]. split; [exact Hg'|].
  assert (Hgate : GroupPage.canManageGroup s'
                  = GroupDetail.canManage (get (data r1) "membership")).
  { rewrite canManageGroup_eq, Hg'. reflexivity. }
  split; [exact Hgate|].
  intros Htabs. unfold GroupPage.tabs in Htabs.
  destruct (GroupPage.canManageGroup s') eqn:Hcan; [discriminate|].
  symmetry in Hgate.
  destruct (loadGroupData_try_not_manager gid h fx s r1 Hg Hgate)
    as (r & fx1 & s1 & Htry & Hnet1 & _).
  rewrite Htry in Hnet. cbn [fst snd] in Hnet. congruence.
Qed.

Lemma tabs_follow_the_fetch_gate_witness :
  exists fx' s',
    GroupDetail.loadGroupData (Some "7")
      (Samples.host (Samples.groups_service "member" Samples.never) true)
      (no_effects, GroupDetail.initial)
    = (Normal tt, (fx', s'))
    /\ GroupPage.canManageGroup s' = false.
Proof.
  destruct (tabs_follow_the_fetch_gate "7"
              (Samples.host (Samples.groups_service "member" Samples.never) true)
              no_effects GroupDetail.initial
              (mkResponse 200 (Samples.group_with_role "member")) eq_refl eq_refl)
    as (fx' & s' & Hrun & _ & Hgate & _).
  exists fx', s'. split; [exact Hrun | exact Hgate].
Defined.

(** X12. The menu of a member's row. A row has a menu only for a viewer
    who manages the group and only when the member is not the viewer; the
    menu always ends with "Remove from Group", never offers the role the
    member already has, and offers "Make Administrator" only to an
    administrator of the group. *)
Theorem member_menu_offers :
  forall (s : GroupDetail.State) (user : option AuthContext.User)
         (member_user_id member_role : JsValue) (items : list GroupPage.MemberItem),
    GroupPage.member_menu s user member_user_id member_role = Some items ->
    GroupPage.canManageGroup s = true
    /\ GroupPage.strict_eq member_user_id (GroupPage.user_id user) = false
    /\ last items (GroupPage.MakeRole "") = GroupPage.RemoveFromGroup
    /\ (forall role, In (GroupPage.MakeRole role) items ->
                     is_string member_role role = false /\
                     (role = "administrator" -> GroupPage.canAdminGroup s = true)).
Proof.
  intros s user uid role items H. unfold GroupPage.member_menu in H.
  destruct (GroupPage.canManageGroup s); [|discriminate].
  destruct (GroupPage.strict_eq uid (GroupPage.user_id user)); [discriminate|].
  cbn [andb negb] in H. injection H as <-.
  split; [reflexivity|]. split; [reflexivity|].
  split.
  - rewrite !app_assoc. apply last_last.
  - intros r Hin.
    apply in_app_or in Hin as [Hin | Hin].
    { destruct (GroupPage.canAdminGroup s && negb (is_string role "administrator"))
        eqn:E; [|contradiction].
      destruct Hin as [Hin | []]. injection Hin as <-.
      apply andb_prop in E as [Hadm Hrole]. apply negb_true_iff in Hrole.
      split; [exact Hrole | intros _; exact Hadm]. }
    apply in_app_or in Hin as [Hin | Hin].
    { destruct (negb (is_string role "manager")) eqn:E; [|contradiction].
      destruct Hin as [Hin | []]. injection Hin as <-.
      apply negb_true_iff in E. split; [exact E | discriminate]. }
    apply in_app_or in Hin as [Hin | Hin].
    { destruct (negb (is_string role "member")) eqn:E; [|contradiction].
      destruct Hin as [Hin | []]. injection Hin as <-.
      apply negb_true_iff in E. split; [exact E | discriminate]. }
    destruct Hin as [Hin | []]. discriminate Hin.
Qed.

Lemma member_menu_offers_witness :
  GroupPage.canManageGroup
    (GroupDetail.mkState (Samples.group_with_role "manager") (JArray []) (JArray [])
       (JArray []) false GroupDetail.TabMembers false false) = true
  /\ last [GroupPage.MakeRole "manager"; GroupPage.MakeRole "member";
           GroupPage.RemoveFromGroup] (GroupPage.MakeRole "")
     = GroupPage.RemoveFromGroup.
Proof.
  destruct (member_menu_offers
              (GroupDetail.mkState (Samples.group_with_role "manager") (JArray [])
                 (JArray []) (JArray []) false GroupDetail.TabMembers false false)
              None (JString "u2") (JString "administrator")
              [GroupPage.MakeRole "manager"; GroupPage.MakeRole "member";
               GroupPage.RemoveFromGroup] eq_refl)
    as (Hcan & _ & Hlast & _).
  split; [exact Hcan | exact Hlast].
Defined.

(* ================================================================== *)
(** ** The handlers of the group page *)
(* ================================================================== *)

Lemma never_throws_loadGroupData (groupId : option string) :
  Frame.never_throws (GroupDetail.loadGroupData groupId).
Proof.
  unfold GroupDetail.loadGroupData.
  destruct groupId as [gid|]; [|auto with frame].
  destruct (gid =? "")%string; [auto with frame|].
  unfold GroupDetail.loadGroupData_catch, GroupDetail.setLoading,
    console_error, toast, navigate.
  never_throws_steps.
Qed.

Lemma try_catch_never_throws {S A : Type} (m : M S A) (handler : Exn -> M S A) h st :
  Frame.never_throws m -> try_catch m handler h st = m h st.
Proof.
  intros Hm. unfold try_catch. destruct (Hm h st) as (a & st' & ->). reflexivity.
Qed.

(** Once the guard is passed, a handler is its call, its toasts and what
    follows. *)
Lemma run_eq (a : GroupPage.Action) (groupId : option string) (h : Host)
    (fx : Effects) (s : GroupDetail.State) :
  truthy (GroupDetail.group s) = true ->
  GroupPage.accepted h fx a ->
  GroupPage.run groupId a h (fx, s)
  = GroupPage.attempt (GroupPage.request_of (GroupDetail.group s) a)
      (GroupPage.success_message a) (GroupPage.follow_up groupId a)
      (GroupPage.failure_label a) (GroupPage.fallback a)
      h (GroupPage.asked a fx, s).
Proof.
  intros Hg Hok.
  destruct a; unfold GroupPage.accepted in Hok; cbn [GroupPage.prompt] in Hok;
    cbn [GroupPage.run];
    unfold GroupDetail.handleDeleteGroup, GroupDetail.handleRemoveMember,
      GroupDetail.handleUpdateRole, GroupDetail.handleRevokeInvitation,
      GroupDetail.handleApproveJoinRequest, GroupDetail.handleDenyJoinRequest,
      GroupDetail.guarded;
    unfold bind at 1; unfold get_state; cbn [fst snd]; rewrite Hg; cbn [negb];
    try (unfold bind at 1; unfold confirm; cbn [fst snd]; rewrite Hok; cbn [negb]);
    reflexivity.
Qed.

Lemma asked_network (a : GroupPage.Action) (fx : Effects) :
  network (GroupPage.asked a fx) = network fx.
Proof. destruct a; reflexivity. Qed.

(** The shape when the call fails. *)
Lemma attempt_rejected req success follow label fb h fx s error :
  transport h (network fx) req = Rejected error ->
  exists err fx1,
    Api.axios_request api req h (fx, s) = (Throw (EAxios err), (fx1, s)) /\
    GroupPage.attempt req success follow label fb h (fx, s)
    = (Normal tt,
       (mkEffects (assigned_href fx1) (network fx1)
          ((label, EAxios err) :: console fx1)
          (ToastError (or (userMessage err) (JString fb)) :: toasts fx1)
          (navigations fx1) (confirms fx1), s)).
Proof.
  intros Ht.
  destruct (axios_request_rejected api req h fx s error Ht)
    as (err & fx1 & Hrun & _).
  exists err, fx1. split; [exact Hrun|].
  unfold GroupPage.attempt, try_catch.
  rewrite (bind_throw_eq _ _ _ _ _ _ Hrun). reflexivity.
Qed.

(** X13. When the call of a handler fails (the group being loaded and the
    prompt, if any, accepted), the handler ends normally after that one
    call: the state of the page is unchanged, no reload is issued, the
    route is kept, the error is logged and one error toast is shown with
    the error's [userMessage] or else the handler's own text. *)
Theorem failed_action_changes_nothing :
  forall (a : GroupPage.Action) (groupId : option string) (h : Host)
         (fx : Effects) (s : GroupDetail.State) (error : AxiosError),
    truthy (GroupDetail.group s) = true ->
    GroupPage.accepted h fx a ->
    transport h (network fx) (GroupPage.request_of (GroupDetail.group s) a)
    = Rejected error ->
    exists fx' err,
      GroupPage.run groupId a h (fx, s) = (Normal tt, (fx', s))
      /\ response err = response error
      /\ network fx' = GroupPage.request_of (GroupDetail.group s) a :: network fx
      /\ console fx' = (GroupPage.failure_label a, EAxios err) :: console fx
      /\ toasts fx'
         = ToastError (or (userMessage err) (JString (GroupPage.fallback a)))
             :: toasts fx
      /\ navigations fx' = navigations fx.
Proof.
  intros a groupId h fx s error Hg Hok Ht.
  rewrite (run_eq a groupId h fx s Hg Hok).
  rewrite <- (asked_network a fx) in Ht.
  destruct (axios_request_rejected api _ h (GroupPage.asked a fx) s error Ht)
    as (err & fx1 & Hrun & Hresp & Hnet & Hcons & Htoast & Hnav & _).
  unfold GroupPage.attempt, try_catch.
  rewrite (bind_throw_eq _ _ _ _ _ _ Hrun).
  do 2 eexists. split; [reflexivity|].
  cbn.
  rewrite Hnet, Hcons, Htoast, Hnav, asked_network.
  split; [exact Hresp|].
  destruct a; repeat split.
Qed.

Lemma failed_action_changes_nothing_witness :
  exists fx' err,
    GroupPage.run (Some "7") (GroupPage.ActUpdateRole "u2" "manager")
      (Samples.host (Samples.always (Rejected Samples.conflict)) true)
      (no_effects,
       GroupDetail.mkState (Samples.group_with_role "administrator") (JArray [])
         (JArray []) (JArray []) false GroupDetail.TabMembers false false)
    = (Normal tt,
       (fx',
        GroupDetail.mkState (Samples.group_with_role "administrator") (JArray [])
          (JArray []) (JArray []) false GroupDetail.TabMembers false false))
    /\ network fx' = [PutMemberRole (JString "7") "u2" "manager"]
    /\ console fx' = [("Failed to update member role:", EAxios err)].
Proof.
  destruct (failed_action_changes_nothing (GroupPage.ActUpdateRole "u2" "manager")
              (Some "7")
              (Samples.host (Samples.always (Rejected Samples.conflict)) true)
              no_effects
              (GroupDetail.mkState (Samples.group_with_role "administrator") (JArray [])
                 (JArray []) (JArray []) false GroupDetail.TabMembers false false)
              Samples.conflict eq_refl I eq_refl)
    as (fx' & err & Hrun & _ & Hnet & Hcons & _).
  exists fx', err. repeat split; assumption.
Defined.

(** The message that the interceptor computes for an error whose status
    is not 401 is truthy. *)
Lemma attached_message_truthy (error : AxiosError) :
  status_is (EAxios error) 401 = false ->
  exists m,
    m = (if truthy (Api.response_data error) then
           or (get (Api.response_data error) "message")
              (or (get (Api.response_data error) "error")
                  (or (get (Api.response_data error) "detail")
                      (Api.server_error_message error)))
         else if request error then JString Api.connectivity_message
         else JString Api.unexpected_message)
    /\ truthy m = true.
Proof.
  intros _. eexists. split; [reflexivity|].
  unfold Api.response_data, Api.server_error_message.
  destruct (response error) as [r|]; simpl.
  - destruct (truthy (data r)).
    + repeat apply or_truthy_r. reflexivity.
    + destruct (request error); reflexivity.
  - destruct (request error); reflexivity.
Qed.

(** X14. The error toast of a handler. When the failed call has a status
    other than 401, the toast shows the message that the interceptor
    attached, never the handler's own text, and the location is not
    assigned. When the status is 401 (the error carrying no [userMessage]
    of its own), the handler shows its own text in an error toast and the
    location is assigned the login URL: the redirect does not silence the
    toast. *)
Theorem failed_action_toast :
  forall (a : GroupPage.Action) (groupId : option string) (h : Host)
         (fx : Effects) (s : GroupDetail.State) (error : AxiosError),
    truthy (GroupDetail.group s) = true ->
    GroupPage.accepted h fx a ->
    transport h (network fx) (GroupPage.request_of (GroupDetail.group s) a)
    = Rejected error ->
    exists fx',
      GroupPage.run groupId a h (fx, s) = (Normal tt, (fx', s))
      /\ (status_is (EAxios error) 401 = false ->
          exists m,
            Api.setupInterceptors (S := GroupDetail.State) api error h (fx, s)
            = (Throw (EAxios (mkError (response error) (request error) m)), (fx, s))
            /\ toasts fx' = ToastError m :: toasts fx
            /\ assigned_href fx' = assigned_href fx)
      /\ (status_is (EAxios error) 401 = true ->
          userMessage error = JUndefined ->
          toasts fx' = ToastError (JString (GroupPage.fallback a)) :: toasts fx
          /\ assigned_href fx'
             = JString (Api.AUTH_API_BASE_URL h ++ "/login?referrer="
                        ++ encodeURIComponent (href h)) :: assigned_href fx).
Proof.
  intros a groupId h fx s error Hg Hok Ht.
  rewrite (run_eq a groupId h fx s Hg Hok).
  rewrite <- (asked_network a fx) in Ht.
  unfold GroupPage.attempt, try_catch. rewrite bind_eq, axios_request_eq, Ht.
  destruct (status_is (EAxios error) 401) eqn:H401.
  - rewrite (onResponseError_401 _ _ _ _ _ H401).
    eexists. split; [reflexivity|]. split; [discriminate|].
    intros _ Hum. cbn. rewrite Hum. destruct a; split; reflexivity.
  - destruct (attached_message_truthy error H401) as (m & Hm & Htruthy).
    unfold Api.onResponseError. rewrite H401, <- Hm.
    eexists. split; [reflexivity|]. split; [|discriminate].
    intros _. exists m. split; [|split].
    + rewrite setupInterceptors_same. unfold Api.onResponseError.
      rewrite H401, <- Hm. reflexivity.
    + cbn. unfold or. rewrite Htruthy. destruct a; reflexivity.
    + cbn. destruct a; reflexivity.
Qed.

Lemma failed_action_toast_witness :
  exists fx',
    GroupPage.run (Some "7") (GroupPage.ActRevokeInvitation "inv-1")
      (Samples.host (Samples.always (Rejected Samples.unauthorized)) true)
      (no_effects,
       GroupDetail.mkState (Samples.group_with_role "manager") (JArray [])
         (JArray []) (JArray []) false GroupDetail.TabInvitations false false)
    = (Normal tt,
       (fx',
        GroupDetail.mkState (Samples.group_with_role "manager") (JArray [])
          (JArray []) (JArray []) false GroupDetail.TabInvitations false false))
    /\ toasts fx' = [ToastError (JString "Failed to revoke invitation")]
    /\ assigned_href fx'
       = [JString "https://h.org/authn/login?referrer=https%3A%2F%2Fh.org%2Fderiva%2Fapps%2Fgroups%2Fdetail%2F7"].
Proof.
  destruct (failed_action_toast (GroupPage.ActRevokeInvitation "inv-1") (Some "7")
              (Samples.host (Samples.always (Rejected Samples.unauthorized)) true)
              no_effects
              (GroupDetail.mkState (Samples.group_with_role "manager") (JArray [])
                 (JArray []) (JArray []) false GroupDetail.TabInvitations false false)
              Samples.unauthorized eq_refl eq_refl eq_refl)
    as (fx' & Hrun & _ & H401).
  exists fx'. split; [exact Hrun|]. exact (H401 eq_refl eq_refl).
Defined.

Lemma never_throws_follow_up (groupId : option string) (a : GroupPage.Action) :
  Frame.never_throws (GroupPage.follow_up groupId a).
Proof.
  destruct a; cbn [GroupPage.follow_up];
    try apply never_throws_loadGroupData.
  unfold navigate. auto with frame.
Qed.

(** X15. When the call of a handler succeeds (the group being loaded and
    the prompt, if any, accepted), the handler is: the call, the success
    toast, then the reload of the page, or for the delete handler the
    change of route to /detail without a reload. *)
Theorem successful_action_then_follows_up :
  forall (a : GroupPage.Action) (groupId : option string) (h : Host)
         (fx : Effects) (s : GroupDetail.State) (resp : AxiosResponse),
    truthy (GroupDetail.group s) = true ->
    GroupPage.accepted h fx a ->
    transport h (network fx) (GroupPage.request_of (GroupDetail.group s) a)
    = Resolved resp ->
    GroupPage.run groupId a h (fx, s)
    = GroupPage.follow_up groupId a h
        (mkEffects (assigned_href fx)
           (GroupPage.request_of (GroupDetail.group s) a :: network fx)
           (console fx)
           (ToastSuccess (GroupPage.success_message a) :: toasts fx)
           (navigations fx) (confirms (GroupPage.asked a fx)), s).
Proof.
  intros a groupId h fx s resp Hg Hok Ht.
  rewrite (run_eq a groupId h fx s Hg Hok).
  rewrite <- (asked_network a fx) in Ht.
  unfold GroupPage.attempt, try_catch.
  rewrite (bind_request_resolved _ _ _ _ _ _ _ Ht).
  unfold bind at 1, toast, effect. cbn [fst snd].
  match goal with
  | |- context [GroupPage.follow_up groupId a h (?fx1, s)] =>
      replace fx1
        with (mkEffects (assigned_href fx)
                (GroupPage.request_of (GroupDetail.group s) a :: network fx)
                (console fx)
                (ToastSuccess (GroupPage.success_message a) :: toasts fx)
                (navigations fx) (confirms (GroupPage.asked a fx)))
        by (destruct a; reflexivity)
  end.
  match goal with
  | |- _ = GroupPage.follow_up groupId a h ?st =>
      destruct (never_throws_follow_up groupId a h st) as ([] & st' & ->)
  end.
  reflexivity.
Qed.

Lemma successful_action_then_follows_up_witness :
  GroupPage.run (Some "7") GroupPage.ActDeleteGroup
    (Samples.host (Samples.groups_service "administrator" Samples.never) true)
    (no_effects,
     GroupDetail.mkState (Samples.group_with_role "administrator") (JArray [])
       (JArray []) (JArray []) false GroupDetail.TabMembers false false)
  = (Normal tt,
     (mkEffects [] [DeleteGroup (JString "7")] []
        [ToastSuccess "Group deleted successfully"] ["/detail"]
        ["Are you sure you want to delete this group? This action cannot be undone."],
      GroupDetail.mkState (Samples.group_with_role "administrator") (JArray [])
        (JArray []) (JArray []) false GroupDetail.TabMembers false false)).
Proof.
  apply (successful_action_then_follows_up GroupPage.ActDeleteGroup (Some "7")
           (Samples.host (Samples.groups_service "administrator" Samples.never) true)
           no_effects
           (GroupDetail.mkState (Samples.group_with_role "administrator") (JArray [])
              (JArray []) (JArray []) false GroupDetail.TabMembers false false)
           (mkResponse 204 JNull));
    reflexivity.
Defined.

Lemma never_throws_attempt req success follow label fb :
  Frame.never_throws (GroupPage.attempt req success follow label fb).
Proof.
  unfold GroupPage.attempt, GroupDetail.toast_failure, console_error, toast.
  never_throws_steps.
Qed.

Lemma never_throws_run (groupId : option string) (a : GroupPage.Action) :
  Frame.never_throws (GroupPage.run groupId a).
Proof.
  destruct a; cbn [GroupPage.run];
    unfold GroupDetail.handleDeleteGroup, GroupDetail.handleRemoveMember,
      GroupDetail.handleUpdateRole, GroupDetail.handleRevokeInvitation,
      GroupDetail.handleApproveJoinRequest, GroupDetail.handleDenyJoinRequest,
      GroupDetail.guarded, GroupDetail.toast_failure, console_error, toast;
    never_throws_steps.
Qed.

(** X16. Every handler of the page ends normally, whatever the service
    answers and whatever the user answers. The two handlers without a
    prompt (update role, approve join request) never show one. When no
    group is loaded, a handler does nothing at all: no prompt, no call, no
    toast, no change of state. *)
Theorem actions_always_settle :
  forall (a : GroupPage.Action) (groupId : option string) (h : Host)
         (fx : Effects) (s : GroupDetail.State),
    exists fx' s',
      GroupPage.run groupId a h (fx, s) = (Normal tt, (fx', s'))
      /\ (GroupPage.prompt a = None -> confirms fx' = confirms fx)
      /\ (truthy (GroupDetail.group s) = false -> fx' = fx /\ s' = s).
Proof.
  intros a groupId h fx s.
  destruct (never_throws_run groupId a h (fx, s)) as ([] & [fx' s'] & Hrun).
  exists fx', s'. split; [exact Hrun|]. split.
  - intros Hp.
    assert (Hq : quiet (GroupPage.run groupId a)).
    { destruct a; try discriminate Hp; cbn [GroupPage.run];
        unfold GroupDetail.handleUpdateRole, GroupDetail.handleApproveJoinRequest,
          GroupDetail.toast_failure, Api.updateMemberRole, Api.approveJoinRequest;
        quiet_steps. }
    specialize (Hq h (fx, s)). rewrite Hrun in Hq. exact Hq.
  - intros Hg. revert Hrun.
    destruct a; cbn [GroupPage.run];
      unfold GroupDetail.handleDeleteGroup, GroupDetail.handleRemoveMember,
        GroupDetail.handleUpdateRole, GroupDetail.handleRevokeInvitation,
        GroupDetail.handleApproveJoinRequest, GroupDetail.handleDenyJoinRequest,
        GroupDetail.guarded;
      unfold bind at 1; unfold get_state; cbn [fst snd]; rewrite Hg; cbn [negb];
      unfold ret; intros H; injection H as <- <-; split; reflexivity.
Qed.

Lemma actions_always_settle_witness :
  exists fx' s',
    GroupPage.run (Some "7") (GroupPage.ActApproveJoinRequest "r1" "member")
      (Samples.host (Samples.groups_service "manager" Samples.never) true)
      (no_effects, GroupDetail.initial)
    = (Normal tt, (fx', s'))
    /\ fx' = no_effects /\ s' = GroupDetail.initial.
Proof.
  destruct (actions_always_settle (GroupPage.ActApproveJoinRequest "r1" "member")
              (Some "7")
              (Samples.host (Samples.groups_service "manager" Samples.never) true)
              no_effects GroupDetail.initial)
    as (fx' & s' & Hrun & _ & Hnone).
  exists fx', s'. split; [exact Hrun|]. exact (Hnone eq_refl).
Defined.

(* ================================================================== *)
(** ** Initials of a member *)
(* ================================================================== *)

Section Initials.

Lemma split_cons (sep c : ascii) (rest : string) :
  JsString.split sep (String c rest)
  = if Ascii.eqb c sep then EmptyString :: JsString.split sep rest
    else String c (hd EmptyString (JsString.split sep rest))
         :: tl (JsString.split sep rest).
Proof.
  cbn [JsString.split]. destruct (Ascii.eqb c sep); [reflexivity|].
  destruct (JsString.split sep rest); reflexivity.
Qed.

Lemma split_not_nil (sep : ascii) (s : string) : JsString.split sep s <> [].
Proof.
  destruct s as [|c rest]; [discriminate|].
  rewrite split_cons. destruct (Ascii.eqb c sep); discriminate.
Qed.

(** A string without the separator is its own single part. *)
Lemma split_absent (sep : ascii) (s : string) :
  Frame.contains sep s = false -> JsString.split sep s = [s].
Proof.
  induction s as [|c rest IH]; [reflexivity|].
  cbn [Frame.contains]. intros H. apply orb_false_elim in H as [Hc Hrest].
  rewrite split_cons, Hc, (IH Hrest). reflexivity.
Qed.

(** The part before the first separator, then the parts of what follows. *)
Lemma split_at_first (sep : ascii) (w y : string) :
  Frame.contains sep w = false ->
  JsString.split sep (w ++ String sep y) = w :: JsString.split sep y.
Proof.
  induction w as [|c w IH]; cbn [append Frame.contains]; intros H.
  - rewrite split_cons, Ascii.eqb_refl. reflexivity.
  - apply orb_false_elim in H as [Hc Hw].
    rewrite split_cons, Hc, (IH Hw). reflexivity.
Qed.

Lemma local_part_cons (c : ascii) (rest : string) :
  Frame.local_part (String c rest)
  = if Ascii.eqb c "@" then EmptyString else String c (Frame.local_part rest).
Proof.
  unfold Frame.local_part. rewrite split_cons.
  destruct (Ascii.eqb c "@"); reflexivity.
Qed.

Lemma local_part_app (w y : string) :
  Frame.contains "@" w = false ->
  Frame.local_part (w ++ y) = (w ++ Frame.local_part y)%string.
Proof.
  induction w as [|c w IH]; cbn [append Frame.contains]; intros H; [reflexivity|].
  apply orb_false_elim in H as [Hc Hw].
  rewrite local_part_cons, Hc, (IH Hw). reflexivity.
Qed.

End Initials.

(** X17. [getUserInitials] throws a TypeError exactly for the addresses
    whose local part begins with two empty dot-separated segments: the
    address ".", an address that begins with ".@", and an address that
    begins with "..". For every other address it returns a string. *)
Theorem getUserInitials_throws_iff :
  forall (email : string),
    JsString.is_ascii email = true ->
    (GroupPage.getUserInitials email = Throw ETypeError
     <-> email = "."
         \/ (exists rest, email = ".@" ++ rest)
         \/ (exists rest, email = ".." ++ rest)).
Proof.
  intros email _. unfold GroupPage.getUserInitials.
  change (hd EmptyString (JsString.split "@" email)) with (Frame.local_part email).
  destruct email as [|c0 r].
  { cbn. split; [discriminate|].
    intros [H | [[x H] | [x H]]]; discriminate H. }
  rewrite local_part_cons.
  destruct (Ascii.eqb_spec c0 "@") as [-> | H0at].
  { cbn. split; [discriminate|].
    intros [H | [[x H] | [x H]]]; discriminate H. }
  rewrite split_cons.
  destruct (Ascii.eqb_spec c0 ".") as [-> | H0dot].
  - (* the first segment is empty *)
    destruct (JsString.split "." (Frame.local_part r)) as [|p1 ps] eqn:Hparts;
      [exfalso; exact (split_not_nil _ _ Hparts)|].
    cbn [JsString.first_char].
    destruct r as [|c1 r1].
    + cbn in Hparts. injection Hparts as <- <-. cbn. intuition.
    + rewrite local_part_cons in Hparts.
      destruct (Ascii.eqb_spec c1 "@") as [-> | H1at].
      { cbn in Hparts. injection Hparts as <- <-. cbn.
        split; [intros _; right; left; exists r1; reflexivity | reflexivity]. }
      rewrite split_cons in Hparts.
      destruct (Ascii.eqb_spec c1 ".") as [-> | H1dot].
      { injection Hparts as <- <-. cbn.
        split; [intros _; right; right; exists r1; reflexivity | reflexivity]. }
      injection Hparts as <- <-. cbn [JsString.first_char].
      split; [discriminate|].
      intros [H | [[x H] | [x H]]].
      * discriminate H.
      * cbn in H. injection H as -> _. contradiction.
      * cbn in H. injection H as -> _. contradiction.
  - (* the first segment is not empty *)
    cbn [JsString.first_char].
    assert (Hno : String c0 r = "."
                  \/ (exists rest, String c0 r = ".@" ++ rest)
                  \/ (exists rest, String c0 r = ".." ++ rest) -> False).
    { intros [H | [[x H] | [x H]]]; cbn in H; injection H as -> _; contradiction. }
    destruct (tl (JsString.split "." (Frame.local_part r))) as [|p1 ps].
    + split; [discriminate | intros H; exfalso; exact (Hno H)].
    + destruct (JsString.first_char p1);
        (split; [discriminate | intros H; exfalso; exact (Hno H)]).
Qed.

Lemma getUserInitials_throws_iff_witness :
  GroupPage.getUserInitials "..smith@example.org" = Throw ETypeError.
Proof.
  apply (getUserInitials_throws_iff "..smith@example.org" eq_refl).
  right. right. exists "smith@example.org". reflexivity.
Defined.

(** X18. When the local part of the address holds no dot, the initials
    are the first two characters of the whole address in upper case, not
    of the local part: for a local part of one character the second
    initial is "@". *)
Theorem getUserInitials_without_dot :
  forall (email : string),
    JsString.is_ascii email = true ->
    Frame.contains "." (Frame.local_part email) = false ->
    GroupPage.getUserInitials email
    = Normal (JsString.toUpperCase (JsString.substring_0_2 email))
    /\ (forall c rest, email = String c (String "@" rest) ->
        GroupPage.getUserInitials email
        = Normal (String (JsString.upper_char c) "@")).
Proof.
  intros email _ Hdot.
  assert (H : GroupPage.getUserInitials email
              = Normal (JsString.toUpperCase (JsString.substring_0_2 email))).
  { unfold GroupPage.getUserInitials.
    change (hd EmptyString (JsString.split "@" email)) with (Frame.local_part email).
    rewrite (split_absent _ _ Hdot). reflexivity. }
  split; [exact H|].
  intros c rest ->. rewrite H. reflexivity.
Qed.

Lemma getUserInitials_without_dot_witness :
  GroupPage.getUserInitials "a@example.org" = Normal "A@".
Proof.
  apply (proj2 (getUserInitials_without_dot "a@example.org" eq_refl eq_refl)
           "a"%char "example.org" eq_refl).
Defined.

(** X19. When the local part begins with two non-empty segments
    separated by a dot, the initials are the first characters of these
    two segments in upper case, whatever follows. *)
Theorem getUserInitials_of_two_segments :
  forall (a b : ascii) (first rest : string),
    JsString.is_ascii (String a (first ++ String "." (String b rest))) = true ->
    Ascii.eqb a "@" = false -> Ascii.eqb a "." = false ->
    Frame.contains "@" first = false -> Frame.contains "." first = false ->
    Ascii.eqb b "@" = false -> Ascii.eqb b "." = false ->
    GroupPage.getUserInitials (String a (first ++ String "." (String b rest)))
    = Normal (String (JsString.upper_char a) (String (JsString.upper_char b) "")).
Proof.
  intros a b first rest _ Haa Had Hfa Hfd Hba Hbd.
  unfold GroupPage.getUserInitials.
  change (hd EmptyString (JsString.split "@" ?e)) with (Frame.local_part e).
  rewrite local_part_cons, Haa, (local_part_app _ _ Hfa).
  rewrite !local_part_cons, Hba. cbn [Ascii.eqb Bool.eqb].
  change (String a (first ++ String "." (String b (Frame.local_part rest))))
    with (String a first ++ String "." (String b (Frame.local_part rest)))%string.
  rewrite split_at_first by (cbn [Frame.contains]; rewrite Had, Hfd; reflexivity).
  rewrite split_cons, Hbd. reflexivity.
Qed.

Lemma getUserInitials_of_two_segments_witness :
  GroupPage.getUserInitials "john.smith@example.org" = Normal "JS".
Proof.
  apply (getUserInitials_of_two_segments "j" "s" "ohn" "mith@example.org");
    reflexivity.
Defined.

(* ================================================================== *)
(** ** The figures of the dashboard *)
(* ================================================================== *)

Section DashboardFacts.



Lemma filter_role_none (role : string) (gs : list JsValue) :
  Dashboard.filter_role role gs = None <-> exists g, In g gs /\ nullish g = true.
Proof.
  induction gs as [|g gs IH]; cbn [Dashboard.filter_role].
  - split; [discriminate | intros (g & [] & _)].
  - unfold Dashboard.has_role at 1.
    destruct (nullish g) eqn:Hg.
    + split; [intros _; exists g; split; [left; reflexivity | exact Hg] | reflexivity].
    + destruct (Dashboard.filter_role role gs) as [kept|].
      * split; [discriminate|].
        intros (x & [<- | Hin] & Hx); [congruence|].
        assert (Hnone : Some kept = None)
          by (apply IH; exists x; split; assumption).
        discriminate Hnone.
      * split; [|reflexivity].
        intros _. destruct (proj1 IH eq_refl) as (x & Hin & Hx).
        exists x. split; [right; exact Hin | exact Hx].
Qed.

End DashboardFacts.



(** X21. The figures cannot be computed exactly when the list of groups
    holds an entry that is [null] or [undefined]: reading the membership
    of such an entry throws, and the load goes to its [catch] clause.
    Groups without a membership are counted in the total. *)
Theorem dashboard_fails_on_null_group :
  forall (userGroups invitations : list JsValue),
    Dashboard.summarize userGroups invitations = None
    <-> exists g, In g userGroups /\ nullish g = true.
Proof.
  intros ug inv. unfold Dashboard.summarize.
  destruct (Dashboard.filter_role "administrator" ug) as [admins|] eqn:Ha.
  - destruct (Dashboard.filter_role "member" ug) as [members|] eqn:Hm.
    + split; [discriminate|].
      intros Hex. apply (filter_role_none "member") in Hex. congruence.
    + split; [intros _; apply (filter_role_none "member"); exact Hm | reflexivity].
  - split; [intros _; apply (filter_role_none "administrator"); exact Ha | reflexivity].
Qed.

(* ================================================================== *)
(** ** Buttons and panels *)
(* ================================================================== *)

(** X22. The inbox offers Accept on a row only for an invitation whose
    status is pending and whose expiry has not passed; such a row is
    shown with the yellow badge "Pending" and the label "Expires", never
    with the word "Expired". *)
Theorem inbox_accept_only_when_pending :
  forall (c : Views.Clock) (invitation : Views.GroupInvitation),
    Views.inbox_accept_button (Views.inbox_row c invitation) = true ->
    Views.inv_status invitation = "pending"
    /\ Views.isInvitationExpired c (Views.inv_expires_at invitation) = false
    /\ Views.inbox_status (Views.inbox_row c invitation) = "Pending"
    /\ Views.inbox_status_class (Views.inbox_row c invitation)
       = "bg-yellow-100 text-yellow-800"
    /\ ~ In (Views.Lit "Expired") (Views.inbox_dates (Views.inbox_row c invitation)).
Proof.
  intros c invitation H. unfold Views.inbox_row in *. cbn in H.
  apply andb_prop in H as [Hs He].
  apply String.eqb_eq in Hs. apply negb_true_iff in He.
  cbn. rewrite He, Hs. cbn.
  repeat split; try reflexivity.
  intros [H | [H | [H | [H | [H | []]]]]]; discriminate H.
Qed.

Lemma inbox_accept_only_when_pending_witness :
  Views.inv_status
    (Views.mkInvitation "inv-1" "bob@example.org" "member" "tok-1"
       "2019-12-01T00:00:00.000Z" "2020-01-01T00:00:00.000Z" "pending") = "pending"
  /\ Views.isInvitationExpired
       (Views.mkClock (Views.parse Views.clock_2026) 1577000000000)
       "2020-01-01T00:00:00.000Z" = false.
Proof.
  destruct (inbox_accept_only_when_pending
              (Views.mkClock (Views.parse Views.clock_2026) 1577000000000)
              (Views.mkInvitation "inv-1" "bob@example.org" "member" "tok-1"
                 "2019-12-01T00:00:00.000Z" "2020-01-01T00:00:00.000Z" "pending")
              eq_refl)
    as (Hs & He & _).
  split; [exact Hs | exact He].
Defined.

(** X23. The invitation-link page renders nothing when the expiry date
    of the invitation does not parse (the formatting of the date throws).
    Otherwise it offers "Accept Invitation" exactly when the expiry has not
    passed, the server calls the invitation valid and the visitor is signed
    in, and it asks the visitor to sign in exactly when the expiry has not
    passed, the invitation is valid and the visitor is signed out: expiry
    and invalidity are told before any sign-in. *)
Theorem accept_page_panels :
  forall (c : Views.Clock) (signed_in : bool) (info : Views.InvitationInfo),
    (Views.accept_page c signed_in info = None
     <-> Views.parse c (Views.info_expires_at info) = None)
    /\ (option_map snd (Views.accept_page c signed_in info) = Some Views.PanelAccept
        <-> (exists t, Views.parse c (Views.info_expires_at info) = Some t
                       /\ Views.now c <= t)
            /\ Views.is_valid info = true /\ signed_in = true)
    /\ (option_map snd (Views.accept_page c signed_in info) = Some Views.PanelSignIn
        <-> (exists t, Views.parse c (Views.info_expires_at info) = Some t
                       /\ Views.now c <= t)
            /\ Views.is_valid info = true /\ signed_in = false).
Proof.
  intros c signed_in info.
  unfold Views.accept_page, Views.isInvitationExpired.
  destruct (Views.parse c (Views.info_expires_at info)) as [t|].
  - split; [split; discriminate|].
    destruct (Z.ltb_spec t (Views.now c)) as [Hlt | Hge];
      destruct (Views.is_valid info); destruct signed_in; cbn;
      (split; (split; [intros H | intros ([t' [Ht' Hle]] & Hv & Hs)]));
      try discriminate;
      try (injection Ht' as <-; lia);
      try reflexivity;
      (split; [exists t; split; [reflexivity | lia] | split; reflexivity]).
  - cbn. split; [split; reflexivity|].
    split; (split; [discriminate | intros ([t [Ht _]] & _); discriminate Ht]).
Qed.

(** The buttons of a join request's row: a request that is not
    pending has no button; a pending one has "Approve as Member",
    "Approve as Manager" and "Deny" for every viewer of the tab, and
    "Approve as Administrator" exactly for an administrator of the
    group. *)
Theorem request_buttons_offers :
  forall (s : GroupDetail.State) (request_status : JsValue),
    (is_string request_status "pending" = false ->
     GroupPage.request_buttons s request_status = [])
    /\ (is_string request_status "pending" = true ->
        In (GroupPage.ApproveAs "member") (GroupPage.request_buttons s request_status)
        /\ In (GroupPage.ApproveAs "manager") (GroupPage.request_buttons s request_status)
        /\ In GroupPage.Deny (GroupPage.request_buttons s request_status)
        /\ (In (GroupPage.ApproveAs "administrator")
               (GroupPage.request_buttons s request_status)
            <-> GroupPage.canAdminGroup s = true)).
Proof.
  intros s st. unfold GroupPage.request_buttons.
  split; intros H; rewrite H; [reflexivity|].
  destruct (GroupPage.canAdminGroup s); cbn; intuition congruence.
Qed.

(** X24. Expiry is final on the client: with the same reading of dates,
    an invitation that a page shows as expired at one time is shown as
    expired at every later time, and the inbox never offers Accept again
    on a row where it once withheld it for expiry. *)
Theorem expired_stays_expired :
  forall (c c' : Views.Clock) (invitation : Views.GroupInvitation),
    Views.parse c' = Views.parse c ->
    Views.now c <= Views.now c' ->
    Views.isInvitationExpired c (Views.inv_expires_at invitation) = true ->
    Views.isInvitationExpired c' (Views.inv_expires_at invitation) = true
    /\ Views.inbox_accept_button (Views.inbox_row c' invitation) = false.
Proof.
  intros c c' invitation Hparse Hnow He.
  assert (He' : Views.isInvitationExpired c' (Views.inv_expires_at invitation) = true).
  { unfold Views.isInvitationExpired in *. rewrite Hparse.
    destruct (Views.parse c (Views.inv_expires_at invitation)) as [t|];
      [|discriminate].
    apply Z.ltb_lt in He. apply Z.ltb_lt. lia. }
  split; [exact He'|].
  unfold Views.inbox_row. cbn. rewrite He'. apply andb_false_r.
Qed.

Lemma expired_stays_expired_witness :
  Views.isInvitationExpired
    (Views.mkClock (Views.parse Views.clock_2026) (Views.now Views.clock_2026 + 1))
    (Views.inv_expires_at Views.lapsed) = true
  /\ Views.inbox_accept_button
       (Views.inbox_row
          (Views.mkClock (Views.parse Views.clock_2026) (Views.now Views.clock_2026 + 1))
          Views.lapsed) = false.
Proof.
  apply (expired_stays_expired Views.clock_2026
           (Views.mkClock (Views.parse Views.clock_2026) (Views.now Views.clock_2026 + 1))
           Views.lapsed eq_refl).
  - vm_compute. discriminate.
  - reflexivity.
Defined.
